(** * Verification of the two-layer agentic knowledge system

    Shallow embedding of [two_layer_agentic_system.py] (document chunking,
    directory persistence, query routing, dispatch and synthesis) and of the
    directory merge done by [build_knowledge.py].

    Python strings are modelled as [string] (one [ascii] per code point below
    256); external LLM collaborators, file-system failures and the directory
    file are modelled as an environment of oracles plus an explicit state. *)

From Stdlib Require Import ZArith Ascii String.
From stdpp Require Import base gmap strings list pretty.

Open Scope string_scope.
Set Warnings "-register-all".
#[local] Arguments String.append : simpl nomatch.

(* ------------------------------------------------------------------ *)
(** ** Python string primitives *)

Module Py.

(** [str.isspace] restricted to code points below 256. *)
Definition is_space (c : ascii) : bool :=
  let n := Ascii.nat_of_ascii c in
  (((9 <=? n) && (n <=? 13)) || ((28 <=? n) && (n <=? 32)) || (n =? 133) || (n =? 160))%nat.

Fixpoint lstrip (s : string) : string :=
  match s with
  | EmptyString => EmptyString
  | String c r => if is_space c then lstrip r else s
  end.

Fixpoint rstrip (s : string) : string :=
  match s with
  | EmptyString => EmptyString
  | String c r =>
      let r' := rstrip r in
      match r' with
      | EmptyString => if is_space c then EmptyString else String c EmptyString
      | _ => String c r'
      end
  end.

(** [str.strip()] *)
Definition strip (s : string) : string := rstrip (lstrip s).

(** Truthiness of [s.strip()]: the string is not made of whitespace only. *)
Definition nonblank (s : string) : bool :=
  match strip s with EmptyString => false | _ => true end.

(** [s.split('\n', 1)]: the first line and, if there is a newline, the rest. *)
Fixpoint split_line (s : string) : string * option string :=
  match s with
  | EmptyString => (EmptyString, None)
  | String c r =>
      if Ascii.eqb c "010"%char then (EmptyString, Some r)
      else let '(a, b) := split_line r in (String c a, b)
  end.

(** [re.split('^' + m, s, flags=re.MULTILINE)] for a literal marker [m]
    that contains no newline: the string is cut at every occurrence of [m]
    at the start of the string or right after a newline, the occurrence
    itself being dropped.  [bol]: the scan is at the beginning of a line;
    [skip]: characters of the current match still to be dropped. *)
Fixpoint split_go (m : string) (bol : bool) (skip : nat) (cur : string) (s : string)
    : list string :=
  match s with
  | EmptyString => [cur]
  | String c r =>
      match skip with
      | S k => split_go m (Ascii.eqb c "010"%char) k cur r
      | O =>
          if bol && String.prefix m s then
            cur :: split_go m (Ascii.eqb c "010"%char) (String.length m - 1) EmptyString r
          else split_go m (Ascii.eqb c "010"%char) 0 (cur +:+ String c EmptyString) r
      end
  end.

Definition re_split_bol (m s : string) : list string := split_go m true 0 EmptyString s.

(** [x in s] for strings: substring test. *)
Fixpoint contains (pat s : string) : bool :=
  String.prefix pat s ||
  match s with EmptyString => false | String _ r => contains pat r end.

(** [s.replace(a, b)] for single characters. *)
Fixpoint replace_char (a b : ascii) (s : string) : string :=
  match s with
  | EmptyString => EmptyString
  | String c r => String (if Ascii.eqb c a then b else c) (replace_char a b r)
  end.

(** [sep.join(l)] *)
Fixpoint join (sep : string) (l : list string) : string :=
  match l with
  | [] => EmptyString
  | [x] => x
  | x :: r => x +:+ sep +:+ join sep r
  end.

(** [str(n)] for a non-negative integer. *)
Definition str_nat (n : nat) : string := pretty (N.of_nat n).



Definition cons_head (c : ascii) (l : list string) : list string :=
  match l with
  | [] => [String c EmptyString]
  | x :: r => String c x :: r
  end.

(** [s.split(sep)] for a two-character separator [sep = a b]: the leftmost
    occurrence is cut first, occurrences do not overlap. *)
Fixpoint split2 (a b : ascii) (s : string) : list string :=
  match s with
  | EmptyString => [EmptyString]
  | String c r =>
      if Ascii.eqb c a then
        match r with
        | String c2 r2 =>
            if Ascii.eqb c2 b then EmptyString :: split2 a b r2 else cons_head c (split2 a b r)
        | EmptyString => cons_head c (split2 a b r)
        end
      else cons_head c (split2 a b r)
  end.

(** Length of the longest prefix of [s] that ends with a closing brace. *)
Fixpoint last_close_len (s : string) : option nat :=
  match s with
  | EmptyString => None
  | String c r =>
      match last_close_len r with
      | Some n => Some (S n)
      | None => if Ascii.eqb c "}"%char then Some 1 else None
      end
  end.

(** [re.search(r'\{.*\}', s, re.DOTALL)] and its [.group()]: the match
    starts at the leftmost opening brace that has a closing brace after it,
    and the greedy [.*] extends it to the last closing brace. *)
Fixpoint re_search_braces (s : string) : option string :=
  match s with
  | EmptyString => None
  | String c r =>
      if Ascii.eqb c "{"%char then
        match last_close_len r with
        | Some n => Some (String c (substring 0 n r))
        | None => re_search_braces r
        end
      else re_search_braces r
  end.

End Py.

Definition nl : string := String "010"%char EmptyString.

(* ------------------------------------------------------------------ *)
(** ** JSON values (the output of [json.loads]) *)

Inductive json :=
| JNull
| JBool (b : bool)
| JNum (n : Z)
| JStr (s : string)
| JArr (l : list json)
| JObj (kv : list (string * json)).

(** [key in obj] *)
Definition jhas (kv : list (string * json)) (k : string) : bool :=
  existsb (fun p => String.eqb p.1 k) kv.

(** [obj.get(k)]: [json.loads] keeps the last of duplicated keys. *)
Definition jget (kv : list (string * json)) (k : string) : option json :=
  match List.find (fun p => String.eqb p.1 k) (rev kv) with
  | Some p => Some p.2
  | None => None
  end.

(** Python truthiness ([bool(v)]) of a JSON value. *)
Definition truthy (v : json) : bool :=
  match v with
  | JNull => false
  | JBool b => b
  | JNum n => negb (Z.eqb n 0)
  | JStr s => negb (String.eqb s EmptyString)
  | JArr l => negb (Nat.eqb (length l) 0)
  | JObj kv => negb (Nat.eqb (length kv) 0)
  end.

(* ------------------------------------------------------------------ *)
(** ** Data model: directory entries and the Python dict holding them *)

Record entry := mkEntry { description : string; chunk_file : string }.

(** A Python dict [section_id -> entry]: insertion ordered, keys unique. *)
Definition dir := list (string * entry).

Fixpoint dget (d : dir) (k : string) : option entry :=
  match d with
  | [] => None
  | (k', v) :: r => if String.eqb k k' then Some v else dget r k
  end.

(** [d[k] = v]: replace in place, or append a new key at the end. *)
Fixpoint dset (d : dir) (k : string) (v : entry) : dir :=
  match d with
  | [] => [(k, v)]
  | (k', v') :: r => if String.eqb k k' then (k', v) :: r else (k', v') :: dset r k v
  end.

(** [base.update(incoming)] *)
Definition dupdate (base incoming : dir) : dir :=
  fold_left (fun acc p => dset acc p.1 p.2) incoming base.

(* ------------------------------------------------------------------ *)
(** ** Environment (oracles) and state *)

(** Result of a call that may raise: the exception message, or the value. *)
Inductive call_result := Exn (msg : string) | Ok (v : string).

(** A file on disk: readable text, or present but unreadable (permission
    denied, undecodable bytes, a directory...) with the exception text. *)
Inductive fentry := FText (s : string) | FUnreadable (msg : string).

(** Observable effects. *)
Inductive event :=
| EvReadDir                           (* load_directory *)
| EvSaveDir                           (* save_directory *)
| EvCallR (ctx : string) (q : json)   (* Agent R_i on one chunk *)
| EvCallRMulti (ctx : string) (q : json)  (* Agent R_i on combined chunks *)
| EvCallSynth (q a : string).         (* Agent A synthesis *)

Record env := mkEnv {
  write_fails : string -> bool;              (* writing this chunk path raises *)
  save_fails : bool;                         (* save_directory raises *)
  agent_r : string -> json -> call_result;   (* chunk text, sub_query *)
  agent_r_multi : string -> json -> call_result;
  agent_a_synth : string -> string -> call_result }.

Record st := mkSt {
  files : gmap string fentry;
  dirfile : option dir;     (* directory.json; None: absent or unparsable *)
  trace : list event }.

Definition set_files (s : st) (f : gmap string fentry) : st := mkSt f (dirfile s) (trace s).
Definition set_dirfile (s : st) (d : option dir) : st := mkSt (files s) d (trace s).
Definition log (s : st) (e : event) : st := mkSt (files s) (dirfile s) (trace s ++ [e])%list.

(** [with open(path, 'w') as f: f.write(content)] *)
Definition write_chunk (E : env) (s : st) (path content : string) : option st :=
  if write_fails E path then None
  else Some (set_files s (<[path := FText content]> (files s))).

(* ------------------------------------------------------------------ *)
(** ** Directory persistence *)

Definition CHUNKS_DIR : string := "chunks".

Definition chunk_path (section_id : string) : string :=
  CHUNKS_DIR +:+ "/" +:+ section_id +:+ ".txt".

Definition load_directory (s : st) : dir * st :=
  (match dirfile s with Some d => d | None => [] end, log s EvReadDir).

Definition save_directory (E : env) (d : dir) (s : st) : st :=
  let s' := log s EvSaveDir in
  if save_fails E then s' else set_dirfile s' (Some d).

(* ------------------------------------------------------------------ *)
(** ** parse_markdown_document *)

(** [Path(file_path).stem.replace(' ', '_').replace('-', '_')], from the stem. *)
Definition file_prefix (stem : string) : string :=
  Py.replace_char "-"%char "_"%char (Py.replace_char " "%char "_"%char stem).

Definition chapter_id (prefix : string) (idx : nat) : string :=
  prefix +:+ "_chapter_" +:+ Py.str_nat idx.

Definition group_id (prefix : string) (n : nat) : string :=
  prefix +:+ "_group_" +:+ Py.str_nat n.

(** [h1_lines = h1_section.split('\n', 1)]; heading and content. *)
Definition heading_of (sec : string) : string := Py.strip (Py.split_line sec).1.
Definition content_of (sec : string) : string :=
  match (Py.split_line sec).2 with Some c => c | None => EmptyString end.

(** The loop over [enumerate(h1_sections)]. *)
Fixpoint h1_loop (E : env) (prefix : string) (idx : nat) (secs : list string)
    (acc : dir * nat * st) : dir * nat * st :=
  match secs with
  | [] => acc
  | sec :: r =>
      let acc' :=
        if negb (Py.nonblank sec) then acc
        else if Nat.eqb idx 0 then acc
        else
          let '(d, cnt, s) := acc in
          let h1_heading := heading_of sec in
          let h1_content := content_of sec in
          let section_id := chapter_id prefix idx in
          let cf := chunk_path section_id in
          let chunk_content := "# " +:+ h1_heading +:+ nl +:+ h1_content in
          match write_chunk E s cf (Py.strip chunk_content) with
          | Some s' => (dset d section_id (mkEntry h1_heading cf), S cnt, s')
          | None => acc
          end
      in h1_loop E prefix (S idx) r acc'
  end.

Definition sections_per_chunk : nat := 2.

(** Loop state of the H2 fallback: entries, count, files, and the batch
    being built ([current_chunk_sections], [current_chunk_titles]). *)
Record h2st := mkH2 {
  h2_dir : dir; h2_cnt : nat; h2_st : st;
  h2_secs : list string; h2_titles : list string }.

(** Write one batch as a chunk under [_group_<len(directory_entries)+1>]. *)
Definition flush (E : env) (prefix : string) (description : string) (a : h2st) : h2st :=
  let section_id := group_id prefix (length (h2_dir a) + 1) in
  let cf := chunk_path section_id in
  let chunk_content := Py.join (nl +:+ nl) (h2_secs a) in
  match write_chunk E (h2_st a) cf (Py.strip chunk_content) with
  | Some s' => mkH2 (dset (h2_dir a) section_id (mkEntry description cf)) (S (h2_cnt a)) s' [] []
  | None => mkH2 (h2_dir a) (h2_cnt a) (h2_st a) [] []
  end.

Definition first_title (ts : list string) : string := default EmptyString (head ts).
Definition last_title (ts : list string) : string := default EmptyString (last ts).

Fixpoint h2_loop (E : env) (prefix : string) (secs : list string) (a : h2st) : h2st :=
  match secs with
  | [] => a
  | sec :: r =>
      if negb (Py.nonblank sec) then h2_loop E prefix r a
      else
        let heading := heading_of sec in
        let section_content := content_of sec in
        let cs := (h2_secs a ++ ["## " +:+ heading +:+ nl +:+ section_content])%list in
        let ct := (h2_titles a ++ [heading])%list in
        let a1 := mkH2 (h2_dir a) (h2_cnt a) (h2_st a) cs ct in
        if Nat.leb sections_per_chunk (length cs) then
          let description :=
            if Nat.eqb (length ct) 1 then first_title ct
            else first_title ct +:+ " and " +:+ last_title ct in
          h2_loop E prefix r (flush E prefix description a1)
        else h2_loop E prefix r a1
  end.

(** [# Handle remaining sections if any] *)
Definition h2_final (E : env) (prefix : string) (a : h2st) : h2st :=
  match h2_secs a with
  | [] => a
  | _ =>
      let ct := h2_titles a in
      let description :=
        if Nat.eqb (length ct) 1 then first_title ct
        else first_title ct +:+ " and others" in
      flush E prefix description a
  end.

(** [parse_markdown_document]: [doc] is the file's text, [None] when
    reading it raised; [stem] is [Path(file_path).stem]. *)
Definition parse_markdown_document (E : env) (doc : option string) (stem : string) (s : st)
    : dir * nat * st :=
  match doc with
  | None => ([], 0, s)
  | Some content =>
      let h1_sections := Py.re_split_bol "# " content in
      let prefix := file_prefix stem in
      let '(d, cnt, s1) := h1_loop E prefix 0 h1_sections ([], 0, s) in
      if Nat.eqb cnt 0 then
        let h2_sections := Py.re_split_bol "## " content in
        let a := h2_final E prefix (h2_loop E prefix (tail h2_sections) (mkH2 d cnt s1 [] [])) in
        (h2_dir a, h2_cnt a, h2_st a)
      else (d, cnt, s1)
  end.

(** [load_document] *)
Definition load_document (E : env) (doc : option string) (stem : string) (s : st) : bool * st :=
  let '(new_entries, chunk_count, s1) := parse_markdown_document E doc stem s in
  if Nat.eqb chunk_count 0 then (false, s1)
  else
    let '(d, s2) := load_directory s1 in
    (true, save_directory E (dupdate d new_entries) s2).



(* ------------------------------------------------------------------ *)
(** ** Agent R_i dispatch *)

(** [query_agent_r_single] *)
Definition query_agent_r_single (E : env) (chunk_file : string) (sub_query : json) (s : st)
    : string * st :=
  match files s !! chunk_file with
  | None => ("Error: Chunk file '" +:+ chunk_file +:+ "' not found.", s)
  | Some (FUnreadable m) => ("Error querying Agent R_i: " +:+ m, s)
  | Some (FText chunk_text) =>
      let s' := log s (EvCallR chunk_text sub_query) in
      match agent_r E chunk_text sub_query with
      | Ok r => (Py.strip r, s')
      | Exn m => ("Error querying Agent R_i: " +:+ m, s')
      end
  end.

(** The inner loop of [query_agent_r_multiple]: the section description is
    the first directory entry (in dict order) whose [chunk_file] matches. *)
Definition find_description (d : dir) (cf : string) : string :=
  match List.find (fun p => String.eqb (chunk_file p.2) cf) d with
  | Some p => description p.2
  | None => "Unknown Section"
  end.

Definition section_header (i : nat) (desc : string) : string :=
  nl +:+ "--- REFERENCE SECTION " +:+ Py.str_nat i +:+ ": " +:+ desc +:+ " ---" +:+ nl.

Definition error_marker (cf : string) : string :=
  nl +:+ "--- ERROR: Could not load " +:+ cf +:+ " ---" +:+ nl.

(** [Ok combined], or [Exn m] when a read raised something other than
    [FileNotFoundError], which escapes to the outer [except Exception]. *)
Fixpoint assemble (d : dir) (fs : gmap string fentry) (i : nat) (cfs : list string)
    (combined : string) : call_result :=
  match cfs with
  | [] => Ok combined
  | cf :: r =>
      match fs !! cf with
      | None => assemble d fs (S i) r (combined +:+ error_marker cf)
      | Some (FUnreadable m) => Exn m
      | Some (FText chunk_content) =>
          assemble d fs (S i) r
            (combined +:+ section_header i (find_description d cf) +:+ chunk_content +:+ nl)
      end
  end.

(** [query_agent_r_multiple] *)
Definition query_agent_r_multiple (E : env) (chunk_files : list string) (sub_query : json)
    (d : dir) (s : st) : string * st :=
  match assemble d (files s) 1 chunk_files EmptyString with
  | Exn m => ("Error querying Agent R_i with multiple chunks: " +:+ m, s)
  | Ok combined =>
      let s' := log s (EvCallRMulti combined sub_query) in
      match agent_r_multi E combined sub_query with
      | Ok r => (Py.strip r, s')
      | Exn m => ("Error querying Agent R_i with multiple chunks: " +:+ m, s')
      end
  end.

(* ------------------------------------------------------------------ *)
(** ** Response synthesis *)

(** [synthesize_response] *)
Definition synthesize_response (E : env) (original_query agent_r_response : string) (s : st)
    : string * st :=
  let s' := log s (EvCallSynth original_query agent_r_response) in
  match agent_a_synth E original_query agent_r_response with
  | Ok r => (Py.strip r, s')
  | Exn _ => (agent_r_response, s')
  end.

(* ------------------------------------------------------------------ *)
(** ** process_user_query *)

(** What [process_user_query] returns; the fixed messages are named by
    constructor, the formatted ones carry their data. *)
Inductive reply :=
| RError                       (* "I encountered an error processing your query. ..." *)
| RDirect (answer : json)      (* agent_a_decision.get("answer", ...) *)
| RScopeFormat                 (* "I encountered an error with the scope format. ..." *)
| RMissing (missing : list json)  (* f"... for {missing_scopes}, but those sections don't exist ..." *)
| RFinal (response : string)   (* synthesized (or fallback) response *)
| Raise (exn : string).        (* an exception escapes process_user_query *)

(** ["error" in agent_a_decision]; [None]: [TypeError] (not iterable). *)
Definition has_error (v : json) : option bool :=
  match v with
  | JObj kv => Some (jhas kv "error")
  | JStr s => Some (Py.contains "error" s)
  | JArr l => Some (existsb (fun j => match j with JStr x => String.eqb x "error" | _ => false end) l)
  | _ => None
  end.

(** The [isinstance(scope, str)] / [isinstance(scope, list)] normalisation. *)
Definition scope_list_of (scope : option json) : option (list json) :=
  match scope with
  | Some (JStr x) => Some [JStr x]
  | Some (JArr l) => Some l
  | _ => None
  end.

(** [[s for s in scope_list if s not in directory]]; [None]: [TypeError]
    (an unhashable list or dict element). *)
Fixpoint missing_scopes (d : dir) (l : list json) : option (list json) :=
  match l with
  | [] => Some []
  | j :: r =>
      match j with
      | JArr _ | JObj _ => None
      | JStr k =>
          match dget d k with
          | Some _ => missing_scopes d r
          | None => option_map (cons j) (missing_scopes d r)
          end
      | _ => option_map (cons j) (missing_scopes d r)
      end
  end.

(** [directory[s]["chunk_file"]] for an element known to be a key. *)
Definition chunk_file_of (d : dir) (j : json) : string :=
  match j with
  | JStr k => match dget d k with Some e => chunk_file e | None => EmptyString end
  | _ => EmptyString
  end.

(** [process_user_query], given the decision returned by [query_agent_a]. *)
Definition process_user_query (E : env) (user_query : string) (agent_a_decision : json)
    (d : dir) (s : st) : reply * st :=
  match has_error agent_a_decision with
  | None => (Raise "TypeError", s)
  | Some true => (RError, s)
  | Some false =>
      match agent_a_decision with
      | JObj kv =>
          if negb (truthy (default (JBool false) (jget kv "needs_reference"))) then
            (RDirect (default (JStr "I couldn't generate a proper response.") (jget kv "answer")), s)
          else
            let sub_query := default JNull (jget kv "sub_query") in
            match scope_list_of (jget kv "scope") with
            | None => (RScopeFormat, s)
            | Some scope_list =>
                match missing_scopes d scope_list with
                | None => (Raise "TypeError", s)
                | Some ((_ :: _) as m) => (RMissing m, s)
                | Some [] =>
                    let '(agent_r_response, s1) :=
                      match scope_list with
                      | [sc] => query_agent_r_single E (chunk_file_of d sc) sub_query s
                      | _ => query_agent_r_multiple E (map (chunk_file_of d) scope_list) sub_query d s
                      end in
                    let '(final_response, s2) := synthesize_response E user_query agent_r_response s1 in
                    (RFinal final_response, s2)
                end
            end
      | _ => (Raise "AttributeError", s)
      end
  end.

(* ------------------------------------------------------------------ *)
(** ** Reference definitions, following the specification's words *)

(** Keys of a Python dict are unique; the program's dicts keep them so. *)
Definition dict_ok (d : dir) : Prop := NoDup (map fst d).

(** Every entry's location is the chunk path of its own id. *)
Definition dir_wf (d : dir) : Prop := Forall (fun p => chunk_file p.2 = chunk_path p.1) d.

Definition writes_ok (E : env) : Prop := forall p, write_fails E p = false.

(** Number of line-initial occurrences of a heading marker in a document. *)
Definition heading_count (m doc : string) : nat := length (Py.re_split_bol m doc) - 1.

(** The chapters of a document: every non-blank top-level fragment at
    1-based heading position [i] (skipped ones keep their position). *)
Fixpoint chapter_chunks (prefix : string) (i : nat) (frags : list string)
    : list (string * entry * string) :=
  match frags with
  | [] => []
  | f :: r =>
      if Py.nonblank f then
        let sid := chapter_id prefix i in
        (sid, mkEntry (heading_of f) (chunk_path sid),
         Py.strip ("# " +:+ heading_of f +:+ nl +:+ content_of f))
          :: chapter_chunks prefix (S i) r
      else chapter_chunks prefix (S i) r
  end.

Definition chapters (stem doc : string) : list (string * entry * string) :=
  chapter_chunks (file_prefix stem) 1 (tail (Py.re_split_bol "# " doc)).

(** Grouping of the fallback: consecutive titles in batches of 2. *)
Fixpoint batches (ts : list string) : list (list string) :=
  match ts with
  | a :: b :: r => [a; b] :: batches r
  | [a] => [[a]]
  | [] => []
  end.

Definition batch_description (b : list string) : string :=
  match b with
  | [a] => a
  | _ =>
      if Nat.eqb (length b) sections_per_chunk then first_title b +:+ " and " +:+ last_title b
      else first_title b +:+ " and others"
  end.

Fixpoint group_entries (prefix : string) (n : nat) (bs : list (list string)) : dir :=
  match bs with
  | [] => []
  | b :: r =>
      (group_id prefix n, mkEntry (batch_description b) (chunk_path (group_id prefix n)))
        :: group_entries prefix (S n) r
  end.

(** Titles of the second-level fragments that are not whitespace only. *)
Definition h2_titles_of (doc : string) : list string :=
  map heading_of (List.filter Py.nonblank (tail (Py.re_split_bol "## " doc))).

Definition section_description (d : dir) (k : string) : string :=
  match dget d k with Some e => description e | None => EmptyString end.

(** The combined context in scope order: each readable section is a
    header carrying its description followed by its body; a section
    that cannot be read is an inline error marker. *)
Fixpoint reference_context (d : dir) (fs : gmap string fentry) (i : nat) (scope : list string)
    : string :=
  match scope with
  | [] => EmptyString
  | k :: r =>
      let cf := chunk_file_of d (JStr k) in
      match fs !! cf with
      | Some (FText body) => section_header i (section_description d k) +:+ body +:+ nl
      | _ => error_marker cf
      end +:+ reference_context d fs (S i) r
  end.

(** [s not in directory], as a test. *)
Definition absent (d : dir) (k : string) : bool :=
  match dget d k with Some _ => false | None => true end.

(** A location that does not raise on [open] other than with
    [FileNotFoundError]: it is readable or it does not exist. *)
Definition not_unreadable (o : option fentry) : bool :=
  match o with Some (FUnreadable _) => false | _ => true end.

(** ** Concrete environments and documents used by the examples *)

(** Writes and saves succeed; the collaborators answer. *)
Definition ok_env : env :=
  mkEnv (fun _ => false) false (fun _ _ => Ok "single answer") (fun _ _ => Ok "combined answer")
    (fun _ a => Ok a).

(** Same, but the synthesis collaborator raises. *)
Definition synth_down_env : env :=
  mkEnv (fun _ => false) false (fun _ _ => Ok "single answer") (fun _ _ => Ok "combined answer")
    (fun _ _ => Exn "Connection error.").

Definition st0 : st := mkSt ∅ None [].

(** A document with the two top-level headings "Overview" and "Specs". *)
Definition demo_doc : string :=
  "Front matter" +:+ nl +:+ "# Overview" +:+ nl +:+ "The system routes queries." +:+ nl +:+
  "# Specs" +:+ nl +:+ "Two layers." +:+ nl.

Definition demo_parse : dir * nat * st := parse_markdown_document ok_env (Some demo_doc) "doc" st0.
Definition demo_dir : dir := demo_parse.1.1.
Definition demo_st : st := demo_parse.2.

Definition delegation (scope : json) (sub_query : option json) : json :=
  JObj ([("needs_reference", JBool true); ("scope", scope)] ++
        match sub_query with Some q => [("sub_query", q)] | None => [] end)%list.

(** The demo state in which the chunk of ["doc_chapter_1"] exists but
    cannot be opened. *)
Definition demo_locked_st : st :=
  set_files demo_st (<[chunk_path "doc_chapter_1" := FUnreadable "[Errno 13] Permission denied"]>
                       (files demo_st)).

(* ------------------------------------------------------------------ *)
(** ** Agent A: directory summary, prompt and decision *)

Definition dq : string := String "034"%char EmptyString.

Definition hex_digit (n : nat) : ascii :=
  if Nat.ltb n 10 then ascii_of_nat (48 + n) else ascii_of_nat (87 + n).

(** The string escaping of [json.dumps(..., ensure_ascii=False)]. *)
Fixpoint json_escape (s : string) : string :=
  match s with
  | EmptyString => EmptyString
  | String c r =>
      let n := nat_of_ascii c in
      (if Nat.eqb n 34 then "\" +:+ dq
       else if Nat.eqb n 92 then "\\"
       else if Nat.eqb n 10 then "\n"
       else if Nat.eqb n 13 then "\r"
       else if Nat.eqb n 9 then "\t"
       else if Nat.eqb n 8 then "\b"
       else if Nat.eqb n 12 then "\f"
       else if Nat.ltb n 32 then
         "\u00" +:+ String (hex_digit (n / 16)) (String (hex_digit (n mod 16)) EmptyString)
       else String c EmptyString) +:+ json_escape r
  end.

Definition json_str (s : string) : string := dq +:+ json_escape s +:+ dq.

(** [json.dumps(v, ensure_ascii=False)] (default separators). *)
Fixpoint json_dumps (j : json) : string :=
  match j with
  | JNull => "null"
  | JBool true => "true"
  | JBool false => "false"
  | JNum z => pretty z
  | JStr x => json_str x
  | JArr l => "[" +:+ Py.join ", " (map json_dumps l) +:+ "]"
  | JObj kv => "{" +:+ Py.join ", " (map (fun p => json_str p.1 +:+ ": " +:+ json_dumps p.2) kv) +:+ "}"
  end.

(** [obj[k] = v] on a JSON object being built. *)
Fixpoint jset (kv : list (string * json)) (k : string) (v : json) : list (string * json) :=
  match kv with
  | [] => [(k, v)]
  | (k', v') :: r => if String.eqb k k' then (k', v) :: r else (k', v') :: jset r k v
  end.

(** [create_directory_summary] *)
Definition create_directory_summary (directory : dir) : string :=
  let summary := fold_left (fun acc p => jset acc p.1 (JObj [("description", JStr (description p.2))]))
                   directory [] in
  json_dumps (JObj summary).

(** [create_agent_a_prompt] *)
Definition create_agent_a_prompt (user_query directory_summary : string) : string :=
  "You are Agent A, a helpful but concise assistant with limited knowledge. Your available reference material is summarized in this directory: "
  +:+ directory_summary
  +:+ "

For the user's query: "
  +:+ dq
  +:+ user_query
  +:+ dq
  +:+ "

First, determine if you can answer confidently on your own. Rate your confidence from 1 to 10.
If your confidence is 8 or higher, answer directly.
If your confidence is below 8, you must consult reference material. Identify the most relevant section(s) from the directory to answer the query.

IMPORTANT: Look for queries that require information from multiple sources:

When in doubt, select multiple relevant sections rather than just one.

Respond ONLY in JSON format.
- If answering directly, use: {"
  +:+ dq
  +:+ "needs_reference"
  +:+ dq
  +:+ ": false, "
  +:+ dq
  +:+ "answer"
  +:+ dq
  +:+ ": "
  +:+ dq
  +:+ "Your direct answer here."
  +:+ dq
  +:+ "}
- If delegating to ONE section, use: {"
  +:+ dq
  +:+ "needs_reference"
  +:+ dq
  +:+ ": true, "
  +:+ dq
  +:+ "scope"
  +:+ dq
  +:+ ": ["
  +:+ dq
  +:+ "directory_section_id"
  +:+ dq
  +:+ "], "
  +:+ dq
  +:+ "sub_query"
  +:+ dq
  +:+ ": "
  +:+ dq
  +:+ "A precise question for the reference agent."
  +:+ dq
  +:+ ", "
  +:+ dq
  +:+ "reason"
  +:+ dq
  +:+ ": "
  +:+ dq
  +:+ "Why you need the reference."
  +:+ dq
  +:+ "}
- If delegating to MULTIPLE sections, use: {"
  +:+ dq
  +:+ "needs_reference"
  +:+ dq
  +:+ ": true, "
  +:+ dq
  +:+ "scope"
  +:+ dq
  +:+ ": ["
  +:+ dq
  +:+ "section_id_1"
  +:+ dq
  +:+ ", "
  +:+ dq
  +:+ "section_id_2"
  +:+ dq
  +:+ ", "
  +:+ dq
  +:+ "section_id_3"
  +:+ dq
  +:+ "], "
  +:+ dq
  +:+ "sub_query"
  +:+ dq
  +:+ ": "
  +:+ dq
  +:+ "A precise question for the reference agent."
  +:+ dq
  +:+ ", "
  +:+ dq
  +:+ "reason"
  +:+ dq
  +:+ ": "
  +:+ dq
  +:+ "Why you need multiple references."
  +:+ dq
  +:+ "}".

(** Agent A's collaborators: the model call on the prompt (raising, among
    others, the [ValueError] of an unset API key) and [json.loads] ([None]:
    [JSONDecodeError]). *)
Record a_env := mkAEnv {
  agent_a : string -> call_result;
  json_loads : string -> option json }.

(** The text [query_agent_a] hands to [json.loads]. *)
Definition extract_json_text (content : string) : string :=
  let response_content := Py.strip content in
  match Py.re_search_braces response_content with
  | Some m => m
  | None => response_content
  end.

(** [query_agent_a] *)
Definition query_agent_a (AE : a_env) (user_query : string) (directory : dir) : json :=
  let directory_summary := create_directory_summary directory in
  let system_prompt := create_agent_a_prompt user_query directory_summary in
  match agent_a AE system_prompt with
  | Exn e => JObj [("error", JStr e)]
  | Ok content =>
      match json_loads AE (extract_json_text content) with
      | Some decision => decision
      | None => JObj [("error", JStr "malformed_json")]
      end
  end.

(** [process_user_query(user_query, directory)]: Agent A's decision, then
    the routing modelled by [process_user_query] above. *)
Definition process_user_query_top (AE : a_env) (E : env) (user_query : string) (d : dir) (s : st)
    : reply * st :=
  process_user_query E user_query (query_agent_a AE user_query d) d s.

(* ------------------------------------------------------------------ *)
(** ** build_knowledge.py, with its early returns *)



(* ------------------------------------------------------------------ *)
(** ** demo_system.py *)





(** [simulate_agent_r_response] *)
Definition simulate_agent_r_response (fs : gmap string fentry) (chunk_file : string) (sub_query : json)
    : string :=
  match fs !! chunk_file with
  | None => "Error: Could not access the reference material for this query."
  | Some (FUnreadable e) => "Error processing the reference material: " +:+ e
  | Some (FText chunk_content) =>
      let paragraphs := Py.split2 "010"%char "010"%char chunk_content in
      let response_content := Py.join (nl +:+ nl) (firstn 3 paragraphs) in
      "Based on the technical documentation, here's the relevant information:" +:+ nl +:+ nl +:+
      response_content
  end.






(** ** Auxiliary notions of the proofs *)

(** The part of the state the chunker does not touch. *)
Definition meta (s : st) : option dir * list event := (dirfile s, trace s).

(** At the location of every entry of [d], the two states hold the same file. *)
Definition agree_at (d : dir) (s1 s2 : st) : Prop :=
  forall k e, dget d k = Some e -> files s1 !! chunk_file e = files s2 !! chunk_file e.

(** Two fallback loop states that differ only in the files outside the
    locations of their entries. *)
Definition h2_rel (a1 a2 : h2st) : Prop :=
  h2_dir a1 = h2_dir a2 /\ h2_cnt a1 = h2_cnt a2 /\ h2_secs a1 = h2_secs a2 /\
  h2_titles a1 = h2_titles a2 /\ agree_at (h2_dir a1) (h2_st a1) (h2_st a2).

(** The written files of a list of chunks, in order. *)
Definition chunk_writes (cs : list (string * entry * string)) (m : gmap string fentry)
    : gmap string fentry :=
  fold_left (fun m x => <[chunk_file x.1.2 := FText x.2]> m) cs m.

(** No id [<p>_group_<j>] beyond the current count is taken yet. *)
Definition group_fresh (p : string) (d : dir) : Prop :=
  forall j, length d < j -> dget d (group_id p j) = None.

(* ================================================================== *)
(** * Proofs *)

(** ** Python primitives on examples *)

Example split_ex1 : Py.re_split_bol "# " ("intro" +:+ nl +:+ "# A" +:+ nl +:+ "x" +:+ nl
  +:+ "## B" +:+ nl +:+ "# C") = ["intro" +:+ nl; "A" +:+ nl +:+ "x" +:+ nl +:+ "## B" +:+ nl; "C"].
Proof. vm_compute. reflexivity. Qed.

Example strip_ex : Py.strip ("  a b" +:+ nl +:+ " ") = "a b".
Proof. vm_compute. reflexivity. Qed.

Example str_nat_ex : Py.str_nat 12 = "12".
Proof. vm_compute. reflexivity. Qed.

(** ** Strings *)

Lemma append_assoc (a b c : string) : (a +:+ b) +:+ c = a +:+ (b +:+ c).
Proof. induction a as [|x a IH]; simpl; [reflexivity | by rewrite IH]. Qed.

Lemma append_empty_r (a : string) : a +:+ EmptyString = a.
Proof. induction a as [|x a IH]; simpl; [reflexivity | by rewrite IH]. Qed.

Lemma length_append (a b : string) : String.length (a +:+ b) = String.length a + String.length b.
Proof. induction a as [|x a IH]; simpl; [reflexivity | by rewrite IH]. Qed.

Lemma append_cancel_r (a b c : string) : a +:+ c = b +:+ c -> a = b.
Proof.
  revert b. induction a as [|x a IH]; intros [|y b] H; simpl in H.
  - reflexivity.
  - apply (f_equal String.length) in H. simpl in H. rewrite length_append in H. lia.
  - apply (f_equal String.length) in H. simpl in H. rewrite length_append in H. lia.
  - injection H as -> H. by rewrite (IH b H).
Qed.

Lemma chunk_path_inj (a b : string) : chunk_path a = chunk_path b -> a = b.
Proof.
  unfold chunk_path, CHUNKS_DIR. simpl. intros H.
  repeat (injection H as H). by apply append_cancel_r in H.
Qed.

(** ** Python dicts as insertion-ordered association lists *)

Lemma dget_dset (d : dir) (k : string) (v : entry) (k' : string) :
  dget (dset d k v) k' = if String.eqb k' k then Some v else dget d k'.
Proof.
  induction d as [|[k0 v0] d IH]; simpl; [reflexivity|].
  destruct (String.eqb_spec k k0) as [->|Hne]; simpl.
  - destruct (String.eqb k' k0); reflexivity.
  - rewrite IH. destruct (String.eqb_spec k' k0) as [->|Hne']; [|reflexivity].
    destruct (String.eqb_spec k0 k); [congruence | reflexivity].
Qed.

Lemma dget_notin (d : dir) (k : string) : k ∉ map fst d -> dget d k = None.
Proof.
  induction d as [|[k0 v0] d IH]; simpl; intros H; [reflexivity|].
  apply not_elem_of_cons in H as [H1 H2].
  destruct (String.eqb_spec k k0); [congruence | by apply IH].
Qed.

Lemma dset_keys (d : dir) (k : string) (v : entry) :
  map fst (dset d k v) = if existsb (fun p => String.eqb k p.1) d then map fst d else (map fst d ++ [k])%list.
Proof.
  induction d as [|[k0 v0] d IH]; simpl; [reflexivity|].
  destruct (String.eqb_spec k k0) as [->|]; simpl; [reflexivity|].
  rewrite IH. by destruct (existsb _ d).
Qed.

Lemma dget_dupdate (b i : dir) (k : string) :
  dict_ok i ->
  dget (dupdate b i) k = match dget i k with Some v => Some v | None => dget b k end.
Proof.
  unfold dict_ok, dupdate. revert b.
  induction i as [|[k0 v0] i IH]; intros b Hnd; simpl; [reflexivity|].
  apply NoDup_cons in Hnd as [Hn Hnd]. rewrite IH by done.
  rewrite dget_dset. destruct (String.eqb_spec k k0) as [->|Hne].
  - by rewrite dget_notin.
  - destruct (dget i k); reflexivity.
Qed.

(** C8: merging ([dict.update]) is the key-wise union in which the incoming
    entry wins on every id collision; on dicts with disjoint ids it is
    commutative, and after merging two sources in turn, an id present in
    the later one holds the later one's entry. *)
Theorem dupdate_union_incoming_wins (b i : dir) :
  dict_ok b -> dict_ok i ->
  (forall k, dget (dupdate b i) k = match dget i k with Some v => Some v | None => dget b k end) /\
  ((forall k, dget b k = None \/ dget i k = None) ->
     forall k, dget (dupdate b i) k = dget (dupdate i b) k) /\
  (forall (s2 : dir) k v, dict_ok s2 -> dget s2 k = Some v ->
     dget (dupdate (dupdate b i) s2) k = Some v).
Proof.
  intros Hb Hi. split; [|split].
  - intros k. by apply dget_dupdate.
  - intros Hdisj k. rewrite !dget_dupdate by done.
    destruct (Hdisj k) as [-> | ->]; by destruct (dget _ k).
  - intros s2 k v Hs2 Hk. by rewrite dget_dupdate, Hk.
Qed.

(** ** Synthesis *)

(** C9: when the synthesis collaborator raises, [synthesize_response]
    returns the factual answer unchanged. *)
Theorem synthesize_failure_returns_factual (E : env) (q a m : string) (s : st) :
  agent_a_synth E q a = Exn m -> (synthesize_response E q a s).1 = a.
Proof. intros H. unfold synthesize_response. by rewrite H. Qed.

(** ** The chunker leaves the directory file and the trace alone *)

Lemma write_chunk_meta (E : env) (s s' : st) (p c : string) :
  write_chunk E s p c = Some s' -> meta s' = meta s.
Proof. unfold write_chunk. destruct (write_fails E p); intros H; inversion H; reflexivity. Qed.

Lemma h1_loop_meta (E : env) (prefix : string) (secs : list string) :
  forall (i : nat) (acc : dir * nat * st), meta (h1_loop E prefix i secs acc).2 = meta acc.2.
Proof.
  induction secs as [|sec r IH]; intros i acc; simpl; [reflexivity|].
  rewrite IH. destruct acc as [[d c] s].
  destruct (Py.nonblank sec); simpl; [|reflexivity].
  destruct (Nat.eqb i 0); [reflexivity|].
  destruct (write_chunk _ _ _ _) as [s'|] eqn:Hw; [|reflexivity].
  by apply write_chunk_meta in Hw.
Qed.

Lemma flush_meta (E : env) (prefix desc : string) (a : h2st) :
  meta (h2_st (flush E prefix desc a)) = meta (h2_st a).
Proof.
  unfold flush. destruct (write_chunk _ _ _ _) as [s'|] eqn:Hw; [|reflexivity].
  by apply write_chunk_meta in Hw.
Qed.

Lemma h2_loop_meta (E : env) (prefix : string) (secs : list string) :
  forall a, meta (h2_st (h2_loop E prefix secs a)) = meta (h2_st a).
Proof.
  induction secs as [|sec r IH]; intros a; cbn [h2_loop]; [reflexivity|].
  destruct (Py.nonblank sec); cbn [negb]; [|apply IH].
  case_match; rewrite IH; [rewrite flush_meta |]; reflexivity.
Qed.

Lemma parse_meta (E : env) (doc : option string) (stem : string) (s : st) :
  meta (parse_markdown_document E doc stem s).2 = meta s.
Proof.
  unfold parse_markdown_document. destruct doc as [content|]; [|reflexivity].
  pose proof (h1_loop_meta E (file_prefix stem) (Py.re_split_bol "# " content) 0 ([], 0, s)) as H1.
  destruct (h1_loop _ _ _ _ _) as [[d c] s1]. simpl in H1.
  destruct (Nat.eqb c 0); simpl; [|exact H1].
  unfold h2_final. rewrite <- H1.
  match goal with |- context [h2_loop ?E ?p ?l ?a] => pose proof (h2_loop_meta E p l a) as H2;
    destruct (h2_loop E p l a) as [d2 c2 s2 cs ct] eqn:Hl end.
  simpl in *. destruct cs; simpl; [exact H2|]. by rewrite flush_meta.
Qed.

(** C10: when parsing yields no chunk, [load_document] returns [False]
    without reading or saving the directory (the stored mapping and the
    effect trace are unchanged); the directory is read, updated and saved
    only when at least one chunk was produced. *)
Theorem load_document_no_chunks_frame (E : env) (doc : option string) (stem : string) (s : st) :
  let chunk_count := (parse_markdown_document E doc stem s).1.2 in
  let '(ok, s') := load_document E doc stem s in
  (chunk_count = 0 -> ok = false /\ dirfile s' = dirfile s /\ trace s' = trace s) /\
  (dirfile s' <> dirfile s \/ trace s' <> trace s -> 0 < chunk_count).
Proof.
  simpl. unfold load_document.
  pose proof (parse_meta E doc stem s) as Hm.
  destruct (parse_markdown_document E doc stem s) as [[ne c] s1]. simpl in *.
  unfold meta in Hm. injection Hm as Hd Ht.
  destruct c as [|c]; simpl.
  - split; [auto|]. intros [H|H]; congruence.
  - split; [lia|]. intros _. lia.
Qed.

(** ** Two runs of the chunker from different prior file states *)

Lemma agree_write (d : dir) (s1 s2 : st) (k : string) (e : entry) (body : string) :
  agree_at d s1 s2 ->
  agree_at (dset d k e)
    (set_files s1 (<[chunk_file e := FText body]> (files s1)))
    (set_files s2 (<[chunk_file e := FText body]> (files s2))).
Proof.
  intros H k' e' Hg. rewrite dget_dset in Hg. simpl. rewrite !lookup_insert.
  case_decide; [reflexivity|].
  destruct (String.eqb k' k); [injection Hg as <-; contradiction | exact (H k' e' Hg)].
Qed.

Lemma h1_loop_agree (E : env) (prefix : string) (secs : list string) :
  forall (i : nat) (acc1 acc2 : dir * nat * st),
  acc1.1 = acc2.1 -> agree_at acc1.1.1 acc1.2 acc2.2 ->
  (h1_loop E prefix i secs acc1).1 = (h1_loop E prefix i secs acc2).1 /\
  agree_at (h1_loop E prefix i secs acc1).1.1
    (h1_loop E prefix i secs acc1).2 (h1_loop E prefix i secs acc2).2.
Proof.
  induction secs as [|sec r IH]; intros i [[d c] s1] [[d2 c2] s2] Heq H;
    simpl in Heq; injection Heq as <- <-; simpl; [by split|].
  destruct (Py.nonblank sec); simpl; [|by apply IH].
  destruct (Nat.eqb i 0); [by apply IH|].
  unfold write_chunk. destruct (write_fails E _); [by apply IH|].
  apply IH; [reflexivity|]. by apply (agree_write d s1 s2 _ (mkEntry _ _)).
Qed.

Lemma flush_rel (E : env) (prefix desc : string) (a1 a2 : h2st) :
  h2_rel a1 a2 -> h2_rel (flush E prefix desc a1) (flush E prefix desc a2).
Proof.
  intros (Hd & Hc & Hs & Ht & Ha). unfold flush, write_chunk.
  rewrite <- Hd, <- Hc, <- Hs.
  destruct (write_fails E _); simpl.
  - repeat split; auto.
  - repeat split. by apply (agree_write _ _ _ _ (mkEntry _ _)).
Qed.

Lemma h2_loop_rel (E : env) (prefix : string) (secs : list string) :
  forall a1 a2, h2_rel a1 a2 -> h2_rel (h2_loop E prefix secs a1) (h2_loop E prefix secs a2).
Proof.
  induction secs as [|sec r IH]; intros a1 a2 H; cbn [h2_loop]; [exact H|].
  destruct (Py.nonblank sec); cbn [negb]; [|by apply IH].
  pose proof H as (Hd & Hc & Hs & Ht & Ha).
  rewrite <- Hs, <- Ht. case_match; apply IH.
  - apply flush_rel. repeat split; simpl; auto.
  - repeat split; simpl; auto.
Qed.

Lemma h2_final_rel (E : env) (prefix : string) (a1 a2 : h2st) :
  h2_rel a1 a2 -> h2_rel (h2_final E prefix a1) (h2_final E prefix a2).
Proof.
  intros H. pose proof H as (Hd & Hc & Hs & Ht & Ha). unfold h2_final.
  rewrite <- Hs, <- Ht. destruct (h2_secs a1); [exact H|]. by apply flush_rel.
Qed.

Lemma parse_agree (E : env) (doc : option string) (stem : string) (s1 s2 : st) :
  (parse_markdown_document E doc stem s1).1 = (parse_markdown_document E doc stem s2).1 /\
  agree_at (parse_markdown_document E doc stem s1).1.1
    (parse_markdown_document E doc stem s1).2 (parse_markdown_document E doc stem s2).2.
Proof.
  unfold parse_markdown_document. destruct doc as [content|].
  2:{ split; [reflexivity|]. intros k e H. discriminate. }
  pose proof (h1_loop_agree E (file_prefix stem) (Py.re_split_bol "# " content) 0
    ([], 0, s1) ([], 0, s2) eq_refl) as H.
  destruct H as [H1 H2]; [intros k e H; discriminate|].
  revert H1 H2.
  destruct (h1_loop E _ 0 _ ([], 0, s1)) as [[d1 c1] t1].
  destruct (h1_loop E _ 0 _ ([], 0, s2)) as [[d2 c2] t2].
  simpl. intros H1 H2. injection H1 as <- <-.
  destruct (Nat.eqb c1 0); [|by split].
  set (a1 := h2_final _ _ (h2_loop _ _ _ (mkH2 d1 c1 t1 [] []))).
  set (a2 := h2_final _ _ (h2_loop _ _ _ (mkH2 d1 c1 t2 [] []))).
  assert (h2_rel a1 a2) as (Hd & Hc & _ & _ & Ha).
  { apply h2_final_rel, h2_loop_rel. repeat split; auto. }
  simpl. rewrite Hd, Hc. split; [reflexivity|]. by rewrite <- Hd.
Qed.

(** C7: running the chunker a second time on the same text and source
    name yields the same entries (ids and descriptions) and count, and
    after the second run the file at every entry's location is what a run
    from any prior state writes there: the prior bodies are overwritten. *)
Theorem rechunk_deterministic (E : env) (doc : option string) (stem : string) (s s' : st) :
  let r1 := parse_markdown_document E doc stem s in
  let r2 := parse_markdown_document E doc stem r1.2 in
  r2.1 = r1.1 /\
  (forall k e, dget r2.1.1 k = Some e ->
     files r2.2 !! chunk_file e = files (parse_markdown_document E doc stem s').2 !! chunk_file e).
Proof.
  simpl. split.
  - apply parse_agree.
  - apply parse_agree.
Qed.

(** ** Top-level chunking *)

Lemma dset_fresh (d : dir) (k : string) (v : entry) :
  dget d k = None -> dset d k v = (d ++ [(k, v)])%list.
Proof.
  induction d as [|[k0 v0] d IH]; simpl; [reflexivity|].
  destruct (String.eqb_spec k k0) as [->|Hne]; [discriminate|].
  intros H. by rewrite IH.
Qed.

Lemma dget_snoc (d : dir) (k : string) (v : entry) (k' : string) :
  dget (d ++ [(k, v)])%list k' =
  match dget d k' with Some x => Some x | None => if String.eqb k' k then Some v else None end.
Proof.
  induction d as [|[k0 v0] d IH]; simpl; [reflexivity|].
  destruct (String.eqb k' k0); [reflexivity | exact IH].
Qed.

Lemma str_nat_inj (i j : nat) : Py.str_nat i = Py.str_nat j -> i = j.
Proof. unfold Py.str_nat. intros H. apply (inj pretty) in H. lia. Qed.

Lemma chapter_id_inj (p : string) (i j : nat) : chapter_id p i = chapter_id p j -> i = j.
Proof.
  unfold chapter_id. intros H. apply (inj (String.app p)) in H.
  apply (inj (String.app "_chapter_")) in H. by apply str_nat_inj.
Qed.

Lemma group_id_inj (p : string) (i j : nat) : group_id p i = group_id p j -> i = j.
Proof.
  unfold group_id. intros H. apply (inj (String.app p)) in H.
  apply (inj (String.app "_group_")) in H. by apply str_nat_inj.
Qed.

Lemma h1_loop_skip0 (E : env) (p f : string) (r : list string) (acc : dir * nat * st) :
  h1_loop E p 0 (f :: r) acc = h1_loop E p 1 r acc.
Proof. simpl. by destruct (Py.nonblank f). Qed.

Lemma h1_loop_chapters (E : env) (p : string) (HE : writes_ok E) (frags : list string) :
  forall (i : nat) (acc : dir * nat * st),
  (forall j, S i <= j -> dget acc.1.1 (chapter_id p j) = None) ->
  (h1_loop E p (S i) frags acc).1.1 =
    (acc.1.1 ++ map (fun x => (x.1.1, x.1.2)) (chapter_chunks p (S i) frags))%list /\
  (h1_loop E p (S i) frags acc).1.2 = acc.1.2 + length (chapter_chunks p (S i) frags) /\
  files (h1_loop E p (S i) frags acc).2 = chunk_writes (chapter_chunks p (S i) frags) (files acc.2).
Proof.
  induction frags as [|f r IH]; intros i [[d c] s] Hf; simpl in *.
  - rewrite app_nil_r. auto.
  - destruct (Py.nonblank f); simpl.
    + unfold write_chunk. rewrite HE. simpl.
      rewrite dset_fresh by (apply Hf; lia).
      match goal with |- context [h1_loop E p (S (S i)) r ?acc] =>
        destruct (IH (S i) acc) as (H1 & H2 & H3) end.
      { intros j Hj. simpl. rewrite dget_snoc, Hf by lia.
        destruct (String.eqb_spec (chapter_id p j) (chapter_id p (S i))) as [Heq|]; [|reflexivity].
        apply chapter_id_inj in Heq. lia. }
      simpl in *. rewrite H1, H2, H3. rewrite <- app_assoc. split; [reflexivity|]. split; [lia|].
      reflexivity.
    + apply IH. intros j Hj. apply Hf. lia.
Qed.

(** C1, as stated, fails: in ["# A\nx\n# \n"] there are two top-level
    fragments but one chunk (the whitespace-only fragment is skipped),
    and the body written is ["# A\nx"], neither the fragment ["A\nx\n"]
    nor ["# A\nx\n"] verbatim (surrounding whitespace is stripped). *)
Lemma chapters_claim_counterexample :
  let doc := "# A" +:+ nl +:+ "x" +:+ nl +:+ "# " +:+ nl in
  let r := parse_markdown_document ok_env (Some doc) "doc" st0 in
  tail (Py.re_split_bol "# " doc) = ["A" +:+ nl +:+ "x" +:+ nl; nl] /\
  r.1.2 <> length (tail (Py.re_split_bol "# " doc)) /\
  files r.2 !! chunk_path "doc_chapter_1" = Some (FText ("# A" +:+ nl +:+ "x")) /\
  files r.2 !! chunk_path "doc_chapter_1" <> Some (FText ("A" +:+ nl +:+ "x" +:+ nl)) /\
  files r.2 !! chunk_path "doc_chapter_1" <> Some (FText ("# A" +:+ nl +:+ "x" +:+ nl)).
Proof.
  vm_compute. split; [reflexivity|]. split; [discriminate|].
  split; [reflexivity|]. split; discriminate.
Qed.

(** C1 (amended): when chunk writes succeed and some top-level fragment
    is not whitespace only, the chunker discards the text before the first
    top-level heading and every whitespace-only fragment, and turns each
    other fragment, at 1-based heading position [i], into exactly one chunk
    [<prefix>_chapter_<i>] whose description is the fragment's first line
    stripped and whose body, written at its location, is
    [strip("# " + description + "\n" + rest of the fragment)], nested
    lower-level headings included; no fallback runs. *)
Theorem chapters_of_document (E : env) (doc stem : string) (s : st) :
  writes_ok E -> chapters stem doc <> [] ->
  (parse_markdown_document E (Some doc) stem s).1.1 =
    map (fun x => (x.1.1, x.1.2)) (chapters stem doc) /\
  (parse_markdown_document E (Some doc) stem s).1.2 = length (chapters stem doc) /\
  files (parse_markdown_document E (Some doc) stem s).2 = chunk_writes (chapters stem doc) (files s).
Proof.
  intros HE Hne. unfold parse_markdown_document, chapters in *.
  destruct (Py.re_split_bol "# " doc) as [|f0 rest]; [done|]. simpl tail in *.
  rewrite h1_loop_skip0.
  destruct (h1_loop_chapters E (file_prefix stem) HE rest 0 ([], 0, s)) as (H1 & H2 & H3);
    [intros; reflexivity|].
  revert H1 H2 H3. destruct (h1_loop E (file_prefix stem) 1 rest ([], 0, s)) as [[d c] s1].
  simpl. intros -> -> H3.
  destruct (chapter_chunks (file_prefix stem) 1 rest); [done|]. simpl. auto.
Qed.

Lemma chapters_of_document_witness :
  writes_ok ok_env /\ chapters "doc" demo_doc <> [] /\
  demo_dir = map (fun x => (x.1.1, x.1.2)) (chapters "doc" demo_doc) /\
  demo_parse.1.2 = length (chapters "doc" demo_doc) /\
  files demo_st = chunk_writes (chapters "doc" demo_doc) (files st0).
Proof.
  assert (HE : writes_ok ok_env) by (intros p; reflexivity).
  assert (Hn : chapters "doc" demo_doc <> []) by (vm_compute; discriminate).
  split; [exact HE|]. split; [exact Hn|].
  exact (chapters_of_document ok_env demo_doc "doc" st0 HE Hn).
Defined.

(** ** Second-level fallback *)

Lemma group_fresh_snoc (p : string) (d : dir) (e : entry) :
  group_fresh p d -> group_fresh p (d ++ [(group_id p (S (length d)), e)])%list.
Proof.
  intros Hf j Hj. rewrite length_app in Hj. simpl in Hj.
  rewrite dget_snoc, Hf by lia.
  destruct (String.eqb_spec (group_id p j) (group_id p (S (length d)))) as [Heq|]; [|reflexivity].
  apply group_id_inj in Heq. lia.
Qed.

Lemma flush_ok (E : env) (p desc : string) (a : h2st) :
  writes_ok E -> group_fresh p (h2_dir a) ->
  flush E p desc a =
    mkH2 (h2_dir a ++ [(group_id p (S (length (h2_dir a))),
                        mkEntry desc (chunk_path (group_id p (S (length (h2_dir a))))))])%list
      (S (h2_cnt a))
      (set_files (h2_st a) (<[chunk_path (group_id p (S (length (h2_dir a)))) :=
         FText (Py.strip (Py.join (nl +:+ nl) (h2_secs a)))]> (files (h2_st a))))
      [] [].
Proof.
  intros HE Hf. unfold flush, write_chunk. rewrite HE, Nat.add_1_r.
  rewrite dset_fresh by (apply Hf; lia). reflexivity.
Qed.

Lemma h2_loop_groups (E : env) (p : string) (HE : writes_ok E) (secs : list string) :
  forall a,
  (h2_secs a = [] /\ h2_titles a = [] \/ exists x t, h2_secs a = [x] /\ h2_titles a = [t]) ->
  group_fresh p (h2_dir a) -> h2_cnt a = length (h2_dir a) ->
  h2_dir (h2_final E p (h2_loop E p secs a)) =
    (h2_dir a ++ group_entries p (S (length (h2_dir a)))
       (batches (h2_titles a ++ map heading_of (List.filter Py.nonblank secs))))%list /\
  h2_cnt (h2_final E p (h2_loop E p secs a)) = length (h2_dir (h2_final E p (h2_loop E p secs a))).
Proof.
  induction secs as [|sec r IH]; intros a Hpend Hf Hc.
  - cbn [h2_loop List.filter map]. rewrite app_nil_r. unfold h2_final.
    destruct Hpend as [[Hs Ht] | (x & t & Hs & Ht)]; rewrite Hs.
    + rewrite Ht. simpl. rewrite app_nil_r. auto.
    + rewrite flush_ok by done. simpl. rewrite Ht. simpl.
      split; [reflexivity|]. rewrite length_app. simpl. lia.
  - cbn [h2_loop List.filter]. destruct (Py.nonblank sec) eqn:Hb; cbn [negb map]; [|by apply IH].
    destruct Hpend as [[Hs Ht] | (x & t & Hs & Ht)]; rewrite Hs, Ht; cbn.
    + match goal with |- context [h2_loop E p r ?a1] =>
        destruct (IH a1) as [H1 H2] end.
      * right. eexists _, _. split; reflexivity.
      * exact Hf.
      * exact Hc.
      * rewrite H2, H1. simpl. auto.
    + rewrite flush_ok by done.
      match goal with |- context [h2_loop E p r ?a1] =>
        destruct (IH a1) as [H1 H2] end.
      * left. split; reflexivity.
      * by apply group_fresh_snoc.
      * simpl. rewrite length_app. simpl. lia.
      * rewrite H2, H1. simpl. rewrite length_app, <- app_assoc, Nat.add_1_r. simpl.
        split; reflexivity.
Qed.

(** C2, as stated, fails: ["## \n## A\n## B\n"] has no top-level heading
    and three second-level headings, the first one empty; the claim batches
    all three (two chunks, [" and A"] and ["B"]), the code skips the
    whitespace-only fragment and writes one chunk ["A and B"]. *)
Lemma fallback_claim_counterexample :
  let doc := "## " +:+ nl +:+ "## A" +:+ nl +:+ "## B" +:+ nl in
  let r := parse_markdown_document ok_env (Some doc) "doc" st0 in
  heading_count "# " doc = 0 /\ heading_count "## " doc = 3 /\
  map (fun x => description x.2) r.1.1 = ["A and B"] /\
  r.1.2 <> length (batches (map heading_of (tail (Py.re_split_bol "## " doc)))).
Proof.
  vm_compute. split; [reflexivity|]. split; [reflexivity|]. split; [reflexivity|]. discriminate.
Qed.

(** C2 (amended): for a document with no top-level heading, when chunk
    writes succeed, the chunker splits at line-initial ["## "], ignores the
    text before the first one and every whitespace-only fragment, and groups
    the remaining headings in order into batches of 2; the [n]-th batch is
    the chunk [<prefix>_group_<n>] (the count of chunks so far plus 1),
    described "A and B" for a batch of two and by its title alone for a
    final batch of one, and the trailing batch is flushed as its own chunk.
    With batches of 2 the "A and others" label never occurs. *)
Theorem fallback_groups (E : env) (doc stem : string) (s : st) :
  writes_ok E -> heading_count "# " doc = 0 ->
  (parse_markdown_document E (Some doc) stem s).1.1 =
    group_entries (file_prefix stem) 1 (batches (h2_titles_of doc)) /\
  (parse_markdown_document E (Some doc) stem s).1.2 =
    length (parse_markdown_document E (Some doc) stem s).1.1.
Proof.
  intros HE H0. unfold heading_count, parse_markdown_document, h2_titles_of in *.
  assert (Hh1 : forall acc, h1_loop E (file_prefix stem) 0 (Py.re_split_bol "# " doc) acc = acc).
  { intros acc. destruct (Py.re_split_bol "# " doc) as [|f0 [|f1 rest]]; simpl in H0.
    - reflexivity.
    - by rewrite h1_loop_skip0.
    - lia. }
  rewrite Hh1. simpl.
  destruct (h2_loop_groups E (file_prefix stem) HE (tail (Py.re_split_bol "## " doc))
              (mkH2 [] 0 s [] [])) as [H1 H2].
  - left. split; reflexivity.
  - intros j _. reflexivity.
  - reflexivity.
  - rewrite H2, H1. simpl. split; reflexivity.
Qed.

Lemma fallback_groups_witness :
  let doc := "## A" +:+ nl +:+ "x" +:+ nl +:+ "## B" +:+ nl +:+ "y" +:+ nl +:+ "## C" +:+ nl in
  writes_ok ok_env /\ heading_count "# " doc = 0 /\
  (parse_markdown_document ok_env (Some doc) "my-doc" st0).1.1 =
    group_entries (file_prefix "my-doc") 1 (batches (h2_titles_of doc)) /\
  (parse_markdown_document ok_env (Some doc) "my-doc" st0).1.2 =
    length (parse_markdown_document ok_env (Some doc) "my-doc" st0).1.1.
Proof.
  intros doc.
  assert (HE : writes_ok ok_env) by (intros p; reflexivity).
  assert (H0 : heading_count "# " doc = 0) by (vm_compute; reflexivity).
  split; [exact HE|]. split; [exact H0|].
  exact (fallback_groups ok_env doc "my-doc" st0 HE H0).
Defined.

(** ** The directory invariant: every entry is stored at its own chunk path *)

Lemma dset_wf (d : dir) (k : string) (v : entry) :
  dir_wf d -> chunk_file v = chunk_path k -> dir_wf (dset d k v).
Proof.
  intros Hwf Hv. induction Hwf as [|[k' v'] r Hp Hr IH]; simpl.
  - by constructor.
  - destruct (String.eqb_spec k k') as [->|_]; constructor; done.
Qed.

Lemma dupdate_wf (b i : dir) : dir_wf b -> dir_wf i -> dir_wf (dupdate b i).
Proof.
  unfold dupdate. intros Hb Hi. revert b Hb.
  induction Hi as [|[k v] r Hp Hr IH]; intros b Hb; simpl; [done|].
  apply IH. by apply dset_wf.
Qed.

Lemma h1_loop_wf (E : env) (p : string) (secs : list string) :
  forall i (acc : dir * nat * st), dir_wf acc.1.1 -> dir_wf (h1_loop E p i secs acc).1.1.
Proof.
  induction secs as [|sec r IH]; intros i acc Hwf; simpl; [done|].
  apply IH. destruct acc as [[d c] s0].
  destruct (negb (Py.nonblank sec)); [done|]. destruct (Nat.eqb i 0); [done|].
  destruct (write_chunk _ _ _ _); [|done]. simpl. by apply dset_wf.
Qed.

Lemma flush_wf (E : env) (p desc : string) (a : h2st) :
  dir_wf (h2_dir a) -> dir_wf (h2_dir (flush E p desc a)).
Proof.
  intros Hwf. unfold flush. destruct (write_chunk _ _ _ _); simpl; [|done].
  by apply dset_wf.
Qed.

Lemma h2_loop_wf (E : env) (p : string) (secs : list string) :
  forall a, dir_wf (h2_dir a) -> dir_wf (h2_dir (h2_loop E p secs a)).
Proof.
  induction secs as [|sec r IH]; intros a Hwf; cbn [h2_loop]; [done|].
  destruct (Py.nonblank sec); cbn [negb]; [|by apply IH].
  case_match; apply IH; [by apply flush_wf | done].
Qed.

(** The entries produced by the chunker satisfy the invariant ... *)
Lemma parse_dir_wf (E : env) (doc : option string) (stem : string) (s : st) :
  dir_wf (parse_markdown_document E doc stem s).1.1.
Proof.
  unfold parse_markdown_document. destruct doc as [content|]; [|constructor].
  pose proof (h1_loop_wf E (file_prefix stem) (Py.re_split_bol "# " content) 0 ([], 0, s)
                ltac:(constructor)) as H1.
  destruct (h1_loop _ _ _ _ _) as [[d c] s1]. simpl in H1.
  destruct (Nat.eqb c 0); [|done]. simpl.
  unfold h2_final. case_match; [|apply flush_wf]; apply h2_loop_wf; done.
Qed.

(** ... and [load_document] keeps it for the stored directory. *)
Lemma load_document_dir_wf (E : env) (doc : option string) (stem : string) (s : st) :
  (forall d, dirfile s = Some d -> dir_wf d) ->
  forall d, dirfile (load_document E doc stem s).2 = Some d -> dir_wf d.
Proof.
  intros Hs. unfold load_document.
  pose proof (parse_meta E doc stem s) as Hm. pose proof (parse_dir_wf E doc stem s) as Hw.
  destruct (parse_markdown_document E doc stem s) as [[ne c] s1]. simpl in Hw.
  unfold meta in Hm. injection Hm as Hd _.
  destruct (Nat.eqb c 0); simpl.
  - rewrite Hd. apply Hs.
  - unfold save_directory. destruct (save_fails E); simpl.
    + rewrite Hd. apply Hs.
    + intros d Hd'. injection Hd' as <-. apply dupdate_wf; [|done].
      destruct (dirfile s1) as [d0|] eqn:He; [|constructor].
      apply Hs. by rewrite <- Hd.
Qed.

(** ** Routing and dispatch *)

Lemma dget_wf (d : dir) (k : string) (e : entry) :
  dir_wf d -> dget d k = Some e -> chunk_file e = chunk_path k.
Proof.
  induction d as [|[k' v] r IH]; simpl; intros Hwf Hg; [discriminate|].
  inversion Hwf as [|? ? Hp Hr]; subst. simpl in Hp.
  destruct (String.eqb_spec k k') as [->|_]; [congruence | by apply IH].
Qed.

Lemma find_description_wf (d : dir) (k : string) (e : entry) :
  dir_wf d -> dget d k = Some e -> find_description d (chunk_file e) = description e.
Proof.
  intros Hwf0 Hg0. pose proof (dget_wf d k e Hwf0 Hg0) as Hce. rewrite Hce.
  unfold find_description. revert Hwf0 Hg0.
  induction d as [|[k' v] r IH]; simpl; intros Hwf Hg; [discriminate|].
  inversion Hwf as [|? ? Hp Hr]; subst. simpl in Hp. rewrite Hp.
  destruct (String.eqb_spec k k') as [->|Hne].
  - injection Hg as <-. by rewrite String.eqb_refl.
  - destruct (String.eqb_spec (chunk_path k') (chunk_path k)) as [Heq|_].
    + apply chunk_path_inj in Heq. congruence.
    + by apply IH.
Qed.

Lemma assemble_context (d : dir) (fs : gmap string fentry) (keys : list string) :
  dir_wf d -> Forall (fun k => is_Some (dget d k)) keys ->
  Forall (fun k => not_unreadable (fs !! chunk_file_of d (JStr k)) = true) keys ->
  forall i acc,
  assemble d fs i (map (fun k => chunk_file_of d (JStr k)) keys) acc =
    Ok (acc +:+ reference_context d fs i keys).
Proof.
  intros Hwf. induction keys as [|k r IH]; intros Hs Hu i acc.
  - simpl. by rewrite append_empty_r.
  - inversion Hs as [|? ? [e He] Hs']; inversion Hu as [|? ? Hk Hu']; subst.
    cbn [assemble map reference_context].
    destruct (fs !! chunk_file_of d (JStr k)) as [[t|m]|] eqn:Hf; simpl in Hk.
    + rewrite IH by done. rewrite !append_assoc. do 3 f_equal.
      unfold chunk_file_of, section_description. rewrite He.
      by rewrite (find_description_wf d k e).
    + discriminate.
    + rewrite IH by done. by rewrite !append_assoc.
Qed.

Lemma assemble_unreadable (d : dir) (fs : gmap string fentry) (keys : list string)
    (k m : string) :
  In k keys -> fs !! chunk_file_of d (JStr k) = Some (FUnreadable m) ->
  forall i acc, exists m',
  assemble d fs i (map (fun k => chunk_file_of d (JStr k)) keys) acc = Exn m'.
Proof.
  intros Hin Hf. induction keys as [|k' r IH]; [done|]. intros i acc.
  cbn [assemble map].
  destruct Hin as [->|Hin].
  - rewrite Hf. by eexists.
  - destruct (fs !! chunk_file_of d (JStr k')) as [[t|m']|]; [by apply IH | by eexists | by apply IH].
Qed.

Lemma missing_scopes_keys (d : dir) (keys : list string) :
  missing_scopes d (map JStr keys) = Some (map JStr (List.filter (absent d) keys)).
Proof.
  induction keys as [|k r IH]; [reflexivity|]. simpl. unfold absent.
  destruct (dget d k); simpl; by rewrite IH.
Qed.

Lemma filter_absent_nil (d : dir) (keys : list string) :
  Forall (fun k => is_Some (dget d k)) keys -> List.filter (absent d) keys = [].
Proof.
  induction 1 as [|k r [e He] _ IH]; [reflexivity|]. simpl. unfold absent. by rewrite He.
Qed.

Lemma process_multi (E : env) (q : string) (kv : list (string * json)) (keys : list string)
    (d : dir) (s : st) :
  jhas kv "error" = false -> truthy (default (JBool false) (jget kv "needs_reference")) = true ->
  scope_list_of (jget kv "scope") = Some (map JStr keys) -> 2 <= length keys ->
  Forall (fun k => is_Some (dget d k)) keys ->
  process_user_query E q (JObj kv) d s =
    let '(r, s1) := query_agent_r_multiple E (map (chunk_file_of d) (map JStr keys))
                      (default JNull (jget kv "sub_query")) d s in
    let '(f, s2) := synthesize_response E q r s1 in (RFinal f, s2).
Proof.
  intros H1 H2 H3 H4 H5. unfold process_user_query. cbn [has_error]. rewrite H1.
  rewrite H2. cbn [negb]. rewrite H3, missing_scopes_keys, (filter_absent_nil _ _ H5).
  cbn [map]. destruct keys as [|k1 [|k2 r]]; simpl in H4; [lia | lia |].
  reflexivity.
Qed.

Lemma multi_dispatch_trace (E : env) (q : string) (kv : list (string * json))
    (keys : list string) (d : dir) (s : st) :
  jhas kv "error" = false -> truthy (default (JBool false) (jget kv "needs_reference")) = true ->
  scope_list_of (jget kv "scope") = Some (map JStr keys) -> 2 <= length keys ->
  dir_wf d -> Forall (fun k => is_Some (dget d k)) keys ->
  Forall (fun k => not_unreadable (files s !! chunk_file_of d (JStr k)) = true) keys ->
  exists r, trace (process_user_query E q (JObj kv) d s).2 =
    (trace s ++ [EvCallRMulti (reference_context d (files s) 1 keys)
                   (default JNull (jget kv "sub_query")); EvCallSynth q r])%list.
Proof.
  intros H1 H2 H3 H4 Hwf H5 H6. rewrite (process_multi E q kv keys d s H1 H2 H3 H4 H5).
  rewrite map_map. unfold query_agent_r_multiple. rewrite assemble_context by done.
  unfold synthesize_response.
  destruct (agent_r_multi E _ _); simpl;
    (destruct (agent_a_synth E _ _); simpl; eexists; by rewrite <- app_assoc).
Qed.

(** C3: for a decision that passes the router's checks and names a scope
    of at least two ids, all in the directory (every entry stored at the
    chunk path of its own id, as the chunker writes them), the one combined
    request sent to the reference agent carries, in scope order, for each
    id a delimiter line with that section's description followed by its
    body (a location that does not exist gives the inline marker, see C6);
    on the demo directory, with "doc_chapter_1" (Overview) and
    "doc_chapter_2" (Specs), the scope ["doc_chapter_2"; "doc_chapter_1"]
    puts the Specs header and body before the Overview header and body. *)
Theorem multi_dispatch_scope_order (E : env) (q : string) (kv : list (string * json))
    (keys : list string) (d : dir) (s : st) :
  jhas kv "error" = false -> truthy (default (JBool false) (jget kv "needs_reference")) = true ->
  jget kv "scope" = Some (JArr (map JStr keys)) -> 2 <= length keys ->
  dir_wf d -> Forall (fun k => is_Some (dget d k)) keys ->
  Forall (fun k => not_unreadable (files s !! chunk_file_of d (JStr k)) = true) keys ->
  (exists r, trace (process_user_query E q (JObj kv) d s).2 =
    (trace s ++ [EvCallRMulti (reference_context d (files s) 1 keys)
                   (default JNull (jget kv "sub_query")); EvCallSynth q r])%list) /\
  map (fun p => (p.1, description p.2)) demo_dir =
    [("doc_chapter_1", "Overview"); ("doc_chapter_2", "Specs")] /\
  reference_context demo_dir (files demo_st) 1 ["doc_chapter_2"; "doc_chapter_1"] =
    section_header 1 "Specs" +:+ ("# Specs" +:+ nl +:+ "Two layers.") +:+ nl +:+
    section_header 2 "Overview" +:+ ("# Overview" +:+ nl +:+ "The system routes queries.") +:+ nl.
Proof.
  intros H1 H2 H3 H4 Hwf H5 H6. split; [|split; vm_compute; reflexivity].
  apply multi_dispatch_trace; try done. by rewrite H3.
Qed.

Lemma multi_dispatch_scope_order_witness :
  let kv := [("needs_reference", JBool true);
             ("scope", JArr [JStr "doc_chapter_2"; JStr "doc_chapter_1"]);
             ("sub_query", JStr "How many layers?")] in
  exists r, trace (process_user_query ok_env "q" (JObj kv) demo_dir demo_st).2 =
    (trace demo_st ++ [EvCallRMulti (reference_context demo_dir (files demo_st) 1
                                      ["doc_chapter_2"; "doc_chapter_1"])
                         (JStr "How many layers?"); EvCallSynth "q" r])%list.
Proof.
  intros kv.
  refine (proj1 (multi_dispatch_scope_order ok_env "q" kv ["doc_chapter_2"; "doc_chapter_1"]
                   demo_dir demo_st _ _ _ _ _ _ _)).
  - reflexivity.
  - reflexivity.
  - reflexivity.
  - simpl; lia.
  - unfold dir_wf. vm_compute. repeat constructor.
  - vm_compute. repeat constructor; eexists; reflexivity.
  - vm_compute. repeat constructor.
Defined.

(** C4: a decision that passes the error check, asks for a reference and
    names a scope (a single id or a list of ids) with at least one id absent
    from the directory is answered with the missing-sections message naming
    exactly the absent ids of the scope, in scope order, and the state is
    left as it was: no reference agent is called. *)
Theorem missing_scope_rejected (E : env) (q : string) (kv : list (string * json))
    (keys : list string) (d : dir) (s : st) :
  jhas kv "error" = false -> truthy (default (JBool false) (jget kv "needs_reference")) = true ->
  scope_list_of (jget kv "scope") = Some (map JStr keys) ->
  Exists (fun k => dget d k = None) keys ->
  process_user_query E q (JObj kv) d s =
    (RMissing (map JStr (List.filter (absent d) keys)), s).
Proof.
  intros H1 H2 H3 H4. unfold process_user_query. cbn [has_error]. rewrite H1, H2.
  cbn [negb]. rewrite H3, missing_scopes_keys.
  destruct (List.filter (absent d) keys) as [|k0 r] eqn:Hf.
  - exfalso. apply Exists_exists in H4 as [k [Hin Hk]].
    assert (Hin' : In k (List.filter (absent d) keys)).
    { apply filter_In. split; [by apply list_elem_of_In|]. unfold absent. by rewrite Hk. }
    by rewrite Hf in Hin'.
  - reflexivity.
Qed.

Lemma missing_scope_rejected_witness :
  let kv := [("needs_reference", JBool true); ("scope", JStr "doc_chapter_9");
             ("sub_query", JStr "What is in chapter 9?")] in
  process_user_query ok_env "q" (JObj kv) demo_dir demo_st =
    (RMissing [JStr "doc_chapter_9"], demo_st).
Proof.
  intros kv.
  refine (missing_scope_rejected ok_env "q" kv ["doc_chapter_9"] demo_dir demo_st _ _ _ _).
  - reflexivity.
  - reflexivity.
  - reflexivity.
  - apply Exists_cons_hd. vm_compute. reflexivity.
Defined.

(** C5, as stated, fails: the router checks nothing of the kind. A decision
    without a [needs_reference] flag gets its [answer] returned directly
    (not a router error); a non-boolean truthy flag (the string "no") with
    an empty [sub_query] is dispatched; a delegation without [sub_query] is
    dispatched with [None] as the question. *)
Lemma decision_validation_claim_counterexample :
  let body1 := "# Overview" +:+ nl +:+ "The system routes queries." in
  process_user_query ok_env "q" (JObj [("answer", JStr "hi")]) demo_dir demo_st =
    (RDirect (JStr "hi"), demo_st) /\
  trace (process_user_query ok_env "q"
           (JObj [("needs_reference", JStr "no"); ("scope", JStr "doc_chapter_1");
                  ("sub_query", JStr EmptyString)]) demo_dir demo_st).2 =
    (trace demo_st ++ [EvCallR body1 (JStr EmptyString); EvCallSynth "q" "single answer"])%list /\
  trace (process_user_query ok_env "q" (delegation (JStr "doc_chapter_1") None)
           demo_dir demo_st).2 =
    (trace demo_st ++ [EvCallR body1 JNull; EvCallSynth "q" "single answer"])%list.
Proof.
  vm_compute. split; [reflexivity|]. split; reflexivity.
Qed.

(** C5 (amended): the router does not validate the decision's fields. For
    a decision object without an "error" key: when [needs_reference] is
    missing or falsy in Python's sense, the [answer] field (or the default
    text) is returned directly and nothing is dispatched; when it is truthy
    (any truthy value, not only [true]), a single-id scope present in the
    directory is dispatched whatever [sub_query] is: a missing one is
    forwarded as [None], an empty one as the empty string. *)
Theorem decision_not_validated (E : env) (q : string) (kv : list (string * json))
    (d : dir) (s : st) :
  jhas kv "error" = false ->
  (truthy (default (JBool false) (jget kv "needs_reference")) = false ->
   process_user_query E q (JObj kv) d s =
     (RDirect (default (JStr "I couldn't generate a proper response.") (jget kv "answer")), s)) /\
  (forall k e t,
   truthy (default (JBool false) (jget kv "needs_reference")) = true ->
   scope_list_of (jget kv "scope") = Some [JStr k] -> dget d k = Some e ->
   files s !! chunk_file e = Some (FText t) ->
   exists r, trace (process_user_query E q (JObj kv) d s).2 =
     (trace s ++ [EvCallR t (default JNull (jget kv "sub_query")); EvCallSynth q r])%list).
Proof.
  intros H1. split.
  - intros H2. unfold process_user_query. cbn [has_error]. rewrite H1, H2. reflexivity.
  - intros k e t H2 H3 H4 H5. unfold process_user_query. cbn [has_error]. rewrite H1, H2.
    cbn [negb]. rewrite H3. simpl. rewrite H4. cbn iota beta zeta.
    unfold query_agent_r_single. rewrite H5. unfold synthesize_response.
    destruct (agent_r E _ _); simpl;
      (destruct (agent_a_synth E _ _); simpl; eexists; by rewrite <- app_assoc).
Qed.

Lemma decision_not_validated_witness :
  let kv := [("needs_reference", JStr "no"); ("scope", JStr "doc_chapter_1")] in
  exists r, trace (process_user_query ok_env "q" (JObj kv) demo_dir demo_st).2 =
    (trace demo_st ++ [EvCallR ("# Overview" +:+ nl +:+ "The system routes queries.") JNull;
                       EvCallSynth "q" r])%list.
Proof.
  intros kv.
  exact (proj2 (decision_not_validated ok_env "q" kv demo_dir demo_st eq_refl)
           "doc_chapter_1" (mkEntry "Overview" (chunk_path "doc_chapter_1"))
           ("# Overview" +:+ nl +:+ "The system routes queries.")
           eq_refl eq_refl eq_refl eq_refl).
Defined.

(** C6, as stated, fails: only a missing location ([FileNotFoundError]) is
    replaced by a marker. A chunk location that exists but cannot be opened
    (permission denied) aborts the whole multi-chunk dispatch: the reference
    agent is never called and the error text is what gets synthesized. *)
Lemma unreadable_chunk_claim_counterexample :
  let kv := [("needs_reference", JBool true);
             ("scope", JArr [JStr "doc_chapter_1"; JStr "doc_chapter_2"]);
             ("sub_query", JStr "How many layers?")] in
  process_user_query ok_env "q" (JObj kv) demo_dir demo_locked_st =
    (RFinal "Error querying Agent R_i with multiple chunks: [Errno 13] Permission denied",
     log demo_locked_st
       (EvCallSynth "q" "Error querying Agent R_i with multiple chunks: [Errno 13] Permission denied")).
Proof. vm_compute. reflexivity. Qed.

(** C6 (amended): in a multi-chunk dispatch (a validated scope of at least
    two ids of the directory), when every location either is readable or
    does not exist, each missing one contributes the inline error marker
    and the others their header and body, and the one combined request is
    sent; when some location exists but cannot be read (any error other
    than [FileNotFoundError]), the dispatch is aborted: no request is sent
    and the error text "Error querying Agent R_i with multiple chunks: ..."
    is passed to synthesis as the reference answer. *)
Theorem multi_dispatch_read_errors (E : env) (q : string) (kv : list (string * json))
    (keys : list string) (d : dir) (s : st) :
  jhas kv "error" = false -> truthy (default (JBool false) (jget kv "needs_reference")) = true ->
  scope_list_of (jget kv "scope") = Some (map JStr keys) -> 2 <= length keys ->
  dir_wf d -> Forall (fun k => is_Some (dget d k)) keys ->
  (Forall (fun k => not_unreadable (files s !! chunk_file_of d (JStr k)) = true) keys ->
   exists r, trace (process_user_query E q (JObj kv) d s).2 =
     (trace s ++ [EvCallRMulti (reference_context d (files s) 1 keys)
                    (default JNull (jget kv "sub_query")); EvCallSynth q r])%list) /\
  (forall k m, In k keys -> files s !! chunk_file_of d (JStr k) = Some (FUnreadable m) ->
   exists m' r, trace (process_user_query E q (JObj kv) d s).2 =
     (trace s ++ [EvCallSynth q ("Error querying Agent R_i with multiple chunks: " +:+ m')])%list /\
     (process_user_query E q (JObj kv) d s).1 = RFinal r).
Proof.
  intros H1 H2 H3 H4 Hwf H5. split.
  - intros H6. by apply multi_dispatch_trace.
  - intros k m Hin Hf. rewrite (process_multi E q kv keys d s H1 H2 H3 H4 H5).
    rewrite map_map. unfold query_agent_r_multiple.
    destruct (assemble_unreadable d (files s) keys k m Hin Hf 1 EmptyString) as [m' ->].
    unfold synthesize_response. exists m'.
    destruct (agent_a_synth E _ _); simpl; eexists; split; reflexivity.
Qed.

Lemma multi_dispatch_read_errors_witness :
  let kv := [("needs_reference", JBool true);
             ("scope", JArr [JStr "doc_chapter_2"; JStr "doc_chapter_9"]);
             ("sub_query", JStr "How many layers?")] in
  exists r, trace (process_user_query ok_env "q" (JObj kv) (dset demo_dir "doc_chapter_9"
                     (mkEntry "Appendix" (chunk_path "doc_chapter_9"))) demo_st).2 =
    (trace demo_st ++
       [EvCallRMulti (reference_context (dset demo_dir "doc_chapter_9"
                        (mkEntry "Appendix" (chunk_path "doc_chapter_9"))) (files demo_st) 1
                        ["doc_chapter_2"; "doc_chapter_9"]) (JStr "How many layers?");
        EvCallSynth "q" r])%list.
Proof.
  intros kv.
  refine (proj1 (multi_dispatch_read_errors ok_env "q" kv ["doc_chapter_2"; "doc_chapter_9"]
                   _ demo_st _ _ _ _ _ _) _).
  - reflexivity.
  - reflexivity.
  - reflexivity.
  - simpl; lia.
  - unfold dir_wf. vm_compute. repeat constructor.
  - vm_compute. repeat constructor; eexists; reflexivity.
  - vm_compute. repeat constructor.
Defined.

(** ** Witnesses of the merge and synthesis theorems *)

Lemma dupdate_union_incoming_wins_witness :
  let b0 := [("doc_chapter_1", mkEntry "Overview" (chunk_path "doc_chapter_1"));
             ("doc_chapter_2", mkEntry "Specs" (chunk_path "doc_chapter_2"))] in
  let i0 := [("doc_chapter_2", mkEntry "Specs, revised" (chunk_path "doc_chapter_2"));
             ("notes_chapter_1", mkEntry "Notes" (chunk_path "notes_chapter_1"))] in
  dget (dupdate b0 i0) "doc_chapter_2" =
    Some (mkEntry "Specs, revised" (chunk_path "doc_chapter_2")) /\
  dget (dupdate b0 i0) "doc_chapter_1" = Some (mkEntry "Overview" (chunk_path "doc_chapter_1")).
Proof.
  intros b0 i0.
  assert (Hb : dict_ok b0) by (apply (bool_decide_unpack _); vm_compute; reflexivity).
  assert (Hi : dict_ok i0) by (apply (bool_decide_unpack _); vm_compute; reflexivity).
  destruct (dupdate_union_incoming_wins b0 i0 Hb Hi) as [Hu _].
  split; rewrite Hu; reflexivity.
Defined.

Lemma synthesize_failure_returns_factual_witness :
  (synthesize_response synth_down_env "What is it?" "The system has two layers." st0).1 =
    "The system has two layers.".
Proof.
  exact (synthesize_failure_returns_factual synth_down_env "What is it?"
           "The system has two layers." "Connection error." st0 eq_refl).
Defined.

(* ================================================================== *)
(** * Further properties of the code *)

(** ** The chunker's count and ids, whatever writes fail *)

Lemma dget_None_notin (d : dir) (k : string) : dget d k = None -> k ∉ map fst d.
Proof.
  induction d as [|[k0 v0] d IH]; simpl; intros H; [set_solver|].
  destruct (String.eqb_spec k k0) as [->|Hne]; [discriminate|].
  apply not_elem_of_cons. split; [done | by apply IH].
Qed.

Lemma dict_ok_snoc (d : dir) (k : string) (v : entry) :
  dict_ok d -> dget d k = None -> dict_ok (d ++ [(k, v)])%list.
Proof.
  unfold dict_ok. intros Hd Hk. rewrite map_app. simpl.
  apply NoDup_app. split; [done|]. split; [|apply NoDup_singleton].
  intros x Hx Hx'. apply list_elem_of_singleton in Hx' as ->.
  exact (dget_None_notin d _ Hk Hx).
Qed.

Lemma h1_loop_count (E : env) (p : string) (secs : list string) :
  forall idx (acc : dir * nat * st),
  acc.1.2 = length acc.1.1 -> dict_ok acc.1.1 ->
  (forall j, idx <= j -> dget acc.1.1 (chapter_id p j) = None) ->
  (h1_loop E p idx secs acc).1.2 = length (h1_loop E p idx secs acc).1.1 /\
  dict_ok (h1_loop E p idx secs acc).1.1.
Proof.
  induction secs as [|sec r IH]; intros idx acc Hc Hd Hf; simpl; [done|].
  apply IH; destruct acc as [[d c] s0]; simpl in *;
    (destruct (negb (Py.nonblank sec)); [| destruct (Nat.eqb idx 0); [|destruct (write_chunk _ _ _ _)]]);
    simpl; try done; try (intros j Hj; apply Hf; lia).
  - rewrite dset_fresh by (apply Hf; lia). rewrite length_app. simpl. lia.
  - rewrite dset_fresh by (apply Hf; lia). apply dict_ok_snoc; [done | apply Hf; lia].
  - intros j Hj. rewrite dset_fresh by (apply Hf; lia). rewrite dget_snoc, Hf by lia.
    destruct (String.eqb_spec (chapter_id p j) (chapter_id p idx)) as [Heq|]; [|done].
    apply chapter_id_inj in Heq. lia.
Qed.

Lemma flush_count (E : env) (p desc : string) (a : h2st) :
  h2_cnt a = length (h2_dir a) -> dict_ok (h2_dir a) -> group_fresh p (h2_dir a) ->
  h2_cnt (flush E p desc a) = length (h2_dir (flush E p desc a)) /\
  dict_ok (h2_dir (flush E p desc a)) /\ group_fresh p (h2_dir (flush E p desc a)).
Proof.
  intros Hc Hd Hf. unfold flush. destruct (write_chunk _ _ _ _); simpl; [|done].
  assert (Hn : dget (h2_dir a) (group_id p (length (h2_dir a) + 1)) = None) by (apply Hf; lia).
  rewrite dset_fresh by done. rewrite Nat.add_1_r in *.
  split; [rewrite length_app; simpl; lia|]. split.
  - by apply dict_ok_snoc.
  - by apply group_fresh_snoc.
Qed.

Lemma h2_loop_count (E : env) (p : string) (secs : list string) :
  forall a, h2_cnt a = length (h2_dir a) -> dict_ok (h2_dir a) -> group_fresh p (h2_dir a) ->
  h2_cnt (h2_loop E p secs a) = length (h2_dir (h2_loop E p secs a)) /\
  dict_ok (h2_dir (h2_loop E p secs a)) /\ group_fresh p (h2_dir (h2_loop E p secs a)).
Proof.
  induction secs as [|sec r IH]; intros a Hc Hd Hf; cbn [h2_loop]; [done|].
  destruct (Py.nonblank sec); cbn [negb]; [|by apply IH].
  case_match; [|by apply IH].
  match goal with |- context [flush E p ?desc ?a1] =>
    destruct (flush_count E p desc a1 Hc Hd Hf) as (H1 & H2 & H3) end.
  by apply IH.
Qed.

Lemma parse_count (E : env) (doc : option string) (stem : string) (s : st) :
  (parse_markdown_document E doc stem s).1.2 = length (parse_markdown_document E doc stem s).1.1 /\
  dict_ok (parse_markdown_document E doc stem s).1.1.
Proof.
  unfold parse_markdown_document. destruct doc as [content|]; [|split; [done | constructor]].
  destruct (h1_loop_count E (file_prefix stem) (Py.re_split_bol "# " content) 0 ([], 0, s))
    as [Hc Hd]; [done | constructor | done |].
  destruct (h1_loop _ _ _ _ _) as [[d c] s1]. simpl in Hc, Hd.
  destruct (Nat.eqb_spec c 0) as [->|]; [|done].
  destruct d; [|discriminate]. simpl.
  assert (Hg : group_fresh (file_prefix stem) []) by (intros j _; reflexivity).
  destruct (h2_loop_count E (file_prefix stem) (tail (Py.re_split_bol "## " content))
              (mkH2 [] 0 s1 [] []) eq_refl Hd Hg) as (H1 & H2 & H3).
  unfold h2_final. case_match; [done|].
  match goal with |- context [flush ?E' ?p' ?desc ?a1] =>
    destruct (flush_count E' p' desc a1 H1 H2 H3) as (G1 & G2 & _) end.
  by split.
Qed.

(** X1: whatever chunk writes fail, the chunk count [parse_markdown_document]
    returns is the number of directory entries it returns, and their ids are
    distinct: a failed write adds neither an entry nor a count. *)
Theorem parse_count_is_entries (E : env) (doc : option string) (stem : string) (s : st) :
  (parse_markdown_document E doc stem s).1.2 = length (parse_markdown_document E doc stem s).1.1 /\
  NoDup (map fst (parse_markdown_document E doc stem s).1.1).
Proof. apply parse_count. Qed.

(** ** What load_document and build_knowledge_directory store *)

Lemma dset_keys_some (d : dir) (k : string) (v : entry) :
  dget d k <> None -> map fst (dset d k v) = map fst d.
Proof.
  induction d as [|[k0 v0] d IH]; simpl; intros H; [done|].
  destruct (String.eqb_spec k k0) as [->|]; simpl; [done|]. by rewrite IH.
Qed.

Lemma dset_dict_ok (d : dir) (k : string) (v : entry) : dict_ok d -> dict_ok (dset d k v).
Proof.
  intros Hd. destruct (dget d k) eqn:Hk.
  - unfold dict_ok. rewrite dset_keys_some by congruence. done.
  - rewrite dset_fresh by done. by apply dict_ok_snoc.
Qed.

Lemma dupdate_dict_ok (b i : dir) : dict_ok b -> dict_ok (dupdate b i).
Proof.
  unfold dupdate. revert b. induction i as [|[k v] r IH]; intros b Hb; simpl; [done|].
  apply IH. by apply dset_dict_ok.
Qed.

Lemma load_document_effect (E : env) (doc : option string) (stem : string) (s : st) :
  let r := parse_markdown_document E doc stem s in
  let s' := (load_document E doc stem s).2 in
  (r.1.2 = 0 -> (load_document E doc stem s).1 = false /\ dirfile s' = dirfile s /\
                trace s' = trace s) /\
  (0 < r.1.2 -> (load_document E doc stem s).1 = true /\
     trace s' = (trace s ++ [EvReadDir; EvSaveDir])%list /\
     dirfile s' = if save_fails E then dirfile s
                  else Some (dupdate (default [] (dirfile s)) r.1.1)).
Proof.
  cbv zeta. unfold load_document. pose proof (parse_meta E doc stem s) as Hm.
  destruct (parse_markdown_document E doc stem s) as [[ne c] s1]. simpl.
  unfold meta in Hm. injection Hm as Hd Ht.
  split; intros Hc.
  - subst c. simpl. done.
  - destruct (Nat.eqb_spec c 0) as [->|_]; [lia|]. simpl.
    rewrite Hd. unfold save_directory, log. simpl. rewrite Ht.
    split; [done|].
    destruct (save_fails E); simpl; (split; [by rewrite <- app_assoc|]); [done|].
    by destruct (dirfile s).
Qed.

(** X2: [load_document] keeps the stored directory a dict whose every entry
    is located at [chunks/<id>.txt]: if the stored directory had these
    properties before the call, it has them after it. *)
Theorem load_document_keeps_store (E : env) (doc : option string) (stem : string) (s : st) :
  (forall d, dirfile s = Some d -> dict_ok d /\ dir_wf d) ->
  forall d, dirfile (load_document E doc stem s).2 = Some d -> dict_ok d /\ dir_wf d.
Proof.
  intros Hs d Hd. split; [|by apply (load_document_dir_wf E doc stem s (fun d H => proj2 (Hs d H)))].
  destruct (load_document_effect E doc stem s) as [H0 H1].
  destruct (Nat.eq_dec (parse_markdown_document E doc stem s).1.2 0) as [Hc|Hc].
  - destruct (H0 Hc) as (_ & Hf & _). rewrite Hf in Hd. by apply Hs.
  - destruct (H1 ltac:(lia)) as (_ & _ & Hf). rewrite Hf in Hd.
    destruct (save_fails E); [by apply Hs|]. injection Hd as <-.
    apply dupdate_dict_ok. destruct (dirfile s) as [d0|] eqn:He; simpl; [|constructor].
    by apply Hs.
Qed.

Lemma load_document_keeps_store_witness :
  dict_ok (dupdate demo_dir demo_dir) /\ dir_wf (dupdate demo_dir demo_dir).
Proof.
  apply (load_document_keeps_store ok_env (Some demo_doc) "doc" (set_dirfile demo_st (Some demo_dir))).
  - intros d Hd. injection Hd as <-. split.
    + apply (bool_decide_unpack _). vm_compute. reflexivity.
    + unfold dir_wf. vm_compute. repeat constructor.
  - vm_compute. reflexivity.
Defined.








(** ** Agent A's decision *)

(** X5: when the Agent A call raises (an unset API key included) or its
    reply does not parse as JSON, [process_user_query] answers with the
    generic error message and dispatches nothing. *)
Theorem agent_a_failure_no_dispatch (AE : a_env) (E : env) (q : string) (d : dir) (s : st) :
  let prompt := create_agent_a_prompt q (create_directory_summary d) in
  (forall e, agent_a AE prompt = Exn e -> process_user_query_top AE E q d s = (RError, s)) /\
  (forall content, agent_a AE prompt = Ok content -> json_loads AE (extract_json_text content) = None ->
     process_user_query_top AE E q d s = (RError, s)).
Proof.
  cbv zeta. unfold process_user_query_top, query_agent_a. split.
  - intros e H. rewrite H. reflexivity.
  - intros content H Hj. rewrite H, Hj. reflexivity.
Qed.

Lemma agent_a_failure_no_dispatch_witness :
  let AE := mkAEnv (fun _ => Exn "Please set your OpenRouter API key in the OPENROUTER_API_KEY variable")
                   (fun _ => None) in
  process_user_query_top AE ok_env "What is the X7-Delta?" demo_dir demo_st = (RError, demo_st).
Proof.
  intros AE.
  exact (proj1 (agent_a_failure_no_dispatch AE ok_env "What is the X7-Delta?" demo_dir demo_st) _
           eq_refl).
Defined.

Lemma last_close_len_app (a b : string) :
  Py.last_close_len (a +:+ b) =
  match Py.last_close_len b with Some n => Some (String.length a + n) | None => Py.last_close_len a end.
Proof.
  induction a as [|c a IH]; simpl.
  - by destruct (Py.last_close_len b).
  - rewrite IH. destruct (Py.last_close_len b); [reflexivity|].
    by destruct (Py.last_close_len a).
Qed.

Lemma last_close_len_none (s : string) :
  Py.contains "}" s = false -> Py.last_close_len s = None.
Proof.
  induction s as [|c r IH]; intros H; [done|].
  cbn [Py.contains] in H. apply orb_false_iff in H as [Hp Hr].
  cbn [Py.last_close_len]. rewrite IH by done.
  destruct (Ascii.eqb_spec c "}") as [->|]; [|done]. destruct r; vm_compute in Hp; discriminate.
Qed.

Lemma search_skip (pre s : string) :
  Py.contains "{" pre = false -> Py.re_search_braces (pre +:+ s) = Py.re_search_braces s.
Proof.
  induction pre as [|c r IH]; intros H; [done|].
  cbn [Py.contains] in H. apply orb_false_iff in H as [Hp Hr].
  cbn [String.append Py.re_search_braces].
  destruct (Ascii.eqb_spec c "{") as [->|]; [destruct r; vm_compute in Hp; discriminate | by apply IH].
Qed.

Lemma substring_prefix (a b : string) : substring 0 (String.length a) (a +:+ b) = a.
Proof. induction a as [|c a IH]; [by destruct b|]. simpl. by rewrite IH. Qed.

Lemma search_braced (pre x post : string) :
  Py.contains "{" pre = false -> Py.contains "}" post = false ->
  Py.re_search_braces (pre +:+ "{" +:+ x +:+ "}" +:+ post) = Some ("{" +:+ x +:+ "}").
Proof.
  intros Hpre Hpost. rewrite search_skip by done. simpl.
  replace (x +:+ String "}" post) with ((x +:+ "}") +:+ post) by (by rewrite append_assoc).
  rewrite last_close_len_app, last_close_len_none by done.
  rewrite last_close_len_app. simpl. rewrite Nat.add_1_r, <- Nat.add_1_r.
  replace (String.length x + 1) with (String.length (x +:+ "}"))
    by (rewrite length_append; reflexivity).
  by rewrite substring_prefix.
Qed.

(** X6: when Agent A's reply, stripped, is some text without an opening
    brace, then a braced text [{x}], then text without a closing brace,
    [query_agent_a] parses exactly [{x}] (from the first opening brace to
    the last closing brace, nested braces included): chatter around the
    JSON object is discarded. *)
Theorem query_agent_a_parses_braced_text (AE : a_env) (q : string) (d : dir)
    (content pre x post : string) :
  agent_a AE (create_agent_a_prompt q (create_directory_summary d)) = Ok content ->
  Py.strip content = pre +:+ "{" +:+ x +:+ "}" +:+ post ->
  Py.contains "{" pre = false -> Py.contains "}" post = false ->
  query_agent_a AE q d =
    match json_loads AE ("{" +:+ x +:+ "}") with
    | Some j => j
    | None => JObj [("error", JStr "malformed_json")]
    end.
Proof.
  intros Ha Hs Hpre Hpost. unfold query_agent_a. cbv zeta. rewrite Ha.
  unfold extract_json_text. rewrite Hs, search_braced by done. reflexivity.
Qed.

Lemma query_agent_a_parses_braced_text_witness :
  let obj := "{" +:+ dq +:+ "needs_reference" +:+ dq +:+ ": false, " +:+ dq +:+ "answer" +:+ dq +:+
             ": " +:+ dq +:+ "Hi {there}" +:+ dq +:+ "}" in
  let AE := mkAEnv (fun _ => Ok ("  Sure! Here it is: " +:+ obj +:+ " Hope this helps. "))
              (fun t => if String.eqb t obj
                        then Some (JObj [("needs_reference", JBool false); ("answer", JStr "Hi {there}")])
                        else None) in
  query_agent_a AE "hello" demo_dir =
    JObj [("needs_reference", JBool false); ("answer", JStr "Hi {there}")].
Proof.
  intros obj AE.
  rewrite (query_agent_a_parses_braced_text AE "hello" demo_dir
             ("  Sure! Here it is: " +:+ obj +:+ " Hope this helps. ") "Sure! Here it is: "
             (dq +:+ "needs_reference" +:+ dq +:+ ": false, " +:+ dq +:+ "answer" +:+ dq +:+
              ": " +:+ dq +:+ "Hi {there}" +:+ dq) " Hope this helps.").
  - vm_compute. reflexivity.
  - reflexivity.
  - vm_compute. reflexivity.
  - vm_compute. reflexivity.
  - vm_compute. reflexivity.
Defined.

(** ** Routing edge cases *)

(** X7: a delegation whose scope is the empty list passes the existence
    check and goes to the multi-chunk path: one reference request with an
    empty combined context is sent. *)
Theorem empty_scope_dispatched (E : env) (q : string) (kv : list (string * json)) (d : dir) (s : st) :
  jhas kv "error" = false -> truthy (default (JBool false) (jget kv "needs_reference")) = true ->
  jget kv "scope" = Some (JArr []) ->
  exists r, trace (process_user_query E q (JObj kv) d s).2 =
    (trace s ++ [EvCallRMulti EmptyString (default JNull (jget kv "sub_query")); EvCallSynth q r])%list.
Proof.
  intros H1 H2 H3. unfold process_user_query. cbn [has_error]. rewrite H1, H2. cbn [negb].
  rewrite H3. simpl. unfold query_agent_r_multiple. simpl. unfold synthesize_response.
  destruct (agent_r_multi E _ _); simpl;
    (destruct (agent_a_synth E _ _); simpl; eexists; by rewrite <- app_assoc).
Qed.

Lemma empty_scope_dispatched_witness :
  exists r, trace (process_user_query ok_env "q"
                     (JObj [("needs_reference", JBool true); ("scope", JArr []);
                            ("sub_query", JStr "Anything?")]) demo_dir demo_st).2 =
    (trace demo_st ++ [EvCallRMulti EmptyString (JStr "Anything?"); EvCallSynth "q" r])%list.
Proof.
  exact (empty_scope_dispatched ok_env "q"
           [("needs_reference", JBool true); ("scope", JArr []); ("sub_query", JStr "Anything?")]
           demo_dir demo_st eq_refl eq_refl eq_refl).
Defined.

(** X8: a decision that is not a JSON object (a string, list, number,
    boolean or null, as [json.loads] may return) never reaches a reference
    agent or the synthesis: the reply is the generic error message or
    [process_user_query] raises, and the state is unchanged. *)
Theorem non_object_decision_no_dispatch (E : env) (q : string) (j : json) (d : dir) (s : st) :
  (forall kv, j <> JObj kv) ->
  (process_user_query E q j d s).2 = s /\
  ((process_user_query E q j d s).1 = RError \/ exists e, (process_user_query E q j d s).1 = Raise e).
Proof.
  intros Hj. unfold process_user_query.
  destruct (has_error j) as [[|]|]; simpl.
  - split; [done | by left].
  - destruct j; try (split; [done | right; by eexists]). by destruct (Hj kv).
  - split; [done | right; by eexists].
Qed.

Lemma non_object_decision_no_dispatch_witness :
  (process_user_query ok_env "q" (JStr "doc_chapter_1") demo_dir demo_st).2 = demo_st.
Proof.
  exact (proj1 (non_object_decision_no_dispatch ok_env "q" (JStr "doc_chapter_1") demo_dir demo_st
                  ltac:(discriminate))).
Defined.

(** X9: in a single-section dispatch, a chunk file that does not exist, or
    cannot be read, is not sent to a reference agent: the error text
    ("Error: Chunk file '...' not found." or "Error querying Agent R_i: ...")
    is what goes to synthesis. *)
Theorem single_dispatch_read_errors (E : env) (q : string) (kv : list (string * json))
    (k : string) (e : entry) (d : dir) (s : st) :
  jhas kv "error" = false -> truthy (default (JBool false) (jget kv "needs_reference")) = true ->
  scope_list_of (jget kv "scope") = Some [JStr k] -> dget d k = Some e ->
  (files s !! chunk_file e = None ->
   trace (process_user_query E q (JObj kv) d s).2 =
     (trace s ++ [EvCallSynth q ("Error: Chunk file '" +:+ chunk_file e +:+ "' not found.")])%list) /\
  (forall m, files s !! chunk_file e = Some (FUnreadable m) ->
   trace (process_user_query E q (JObj kv) d s).2 =
     (trace s ++ [EvCallSynth q ("Error querying Agent R_i: " +:+ m)])%list).
Proof.
  intros H1 H2 H3 H4. unfold process_user_query. cbn [has_error]. rewrite H1, H2.
  cbn [negb]. rewrite H3. simpl. rewrite H4. cbn iota beta zeta.
  unfold query_agent_r_single, synthesize_response. split.
  - intros H5. rewrite H5. by destruct (agent_a_synth E _ _).
  - intros m H5. rewrite H5. by destruct (agent_a_synth E _ _).
Qed.

Lemma single_dispatch_read_errors_witness :
  trace (process_user_query ok_env "q"
           (JObj [("needs_reference", JBool true); ("scope", JStr "doc_chapter_1");
                  ("sub_query", JStr "What?")]) demo_dir demo_locked_st).2 =
    (trace demo_locked_st ++
       [EvCallSynth "q" ("Error querying Agent R_i: " +:+ "[Errno 13] Permission denied")])%list.
Proof.
  exact (proj2 (single_dispatch_read_errors ok_env "q"
                  [("needs_reference", JBool true); ("scope", JStr "doc_chapter_1");
                   ("sub_query", JStr "What?")] "doc_chapter_1"
                  (mkEntry "Overview" (chunk_path "doc_chapter_1")) demo_dir demo_locked_st
                  eq_refl eq_refl eq_refl eq_refl) _ eq_refl).
Defined.

(** ** Section ids of the chunker *)

Lemma dset_keys_Forall (P : string -> Prop) (d : dir) (k : string) (v : entry) :
  Forall P (map fst d) -> P k -> Forall P (map fst (dset d k v)).
Proof.
  intros Hd Hk. induction d as [|[k0 v0] r IH]; simpl; [by constructor|].
  inversion Hd as [|? ? H0 Hr]; subst.
  destruct (String.eqb k k0); simpl; constructor; auto.
Qed.

Lemma h1_loop_ids (E : env) (p : string) (secs : list string) :
  forall i (acc : dir * nat * st),
  Forall (fun k => exists j, 1 <= j /\ (k = chapter_id p j \/ k = group_id p j)) (map fst acc.1.1) ->
  Forall (fun k => exists j, 1 <= j /\ (k = chapter_id p j \/ k = group_id p j))
    (map fst (h1_loop E p i secs acc).1.1).
Proof.
  induction secs as [|sec r IH]; intros i acc Hk; simpl; [done|].
  apply IH. destruct acc as [[d c] s0].
  destruct (negb (Py.nonblank sec)); [done|]. destruct (Nat.eqb_spec i 0); [done|].
  destruct (write_chunk _ _ _ _); [|done]. simpl.
  apply dset_keys_Forall; [done|]. exists i. split; [lia | by left].
Qed.

Lemma flush_ids (E : env) (p desc : string) (a : h2st) :
  Forall (fun k => exists j, 1 <= j /\ (k = chapter_id p j \/ k = group_id p j)) (map fst (h2_dir a)) ->
  Forall (fun k => exists j, 1 <= j /\ (k = chapter_id p j \/ k = group_id p j))
    (map fst (h2_dir (flush E p desc a))).
Proof.
  intros Hk. unfold flush. destruct (write_chunk _ _ _ _); simpl; [|done].
  apply dset_keys_Forall; [done|]. eexists. split; [|by right]. lia.
Qed.

Lemma h2_loop_ids (E : env) (p : string) (secs : list string) :
  forall a,
  Forall (fun k => exists j, 1 <= j /\ (k = chapter_id p j \/ k = group_id p j)) (map fst (h2_dir a)) ->
  Forall (fun k => exists j, 1 <= j /\ (k = chapter_id p j \/ k = group_id p j))
    (map fst (h2_dir (h2_loop E p secs a))).
Proof.
  induction secs as [|sec r IH]; intros a Hk; cbn [h2_loop]; [done|].
  destruct (Py.nonblank sec); cbn [negb]; [|by apply IH].
  case_match; apply IH; [by apply flush_ids | done].
Qed.

(** X10: every section id [parse_markdown_document] produces is
    [<prefix>_chapter_<i>] or [<prefix>_group_<n>] with [i, n >= 1], where
    the prefix is the file stem with spaces and hyphens replaced by
    underscores; this holds whatever chunk writes fail. *)
Theorem parse_ids_shape (E : env) (doc : option string) (stem : string) (s : st) :
  Forall (fun k => exists j, 1 <= j /\
            (k = chapter_id (file_prefix stem) j \/ k = group_id (file_prefix stem) j))
    (map fst (parse_markdown_document E doc stem s).1.1).
Proof.
  unfold parse_markdown_document. destruct doc as [content|]; [|constructor].
  pose proof (h1_loop_ids E (file_prefix stem) (Py.re_split_bol "# " content) 0 ([], 0, s)
                ltac:(constructor)) as H1.
  destruct (h1_loop _ _ _ _ _) as [[d c] s1]. simpl in H1.
  destruct (Nat.eqb c 0); [|done]. simpl.
  unfold h2_final. case_match; [|apply flush_ids]; apply h2_loop_ids; done.
Qed.

(** ** The demo never reaches a chunk of a chunker-built directory *)








(** ** The simulated reference answer *)

Lemma cons_head_nonempty (c : ascii) (l : list string) : Py.cons_head c l <> [].
Proof. destruct l; discriminate. Qed.

Lemma split2_nonempty (a b : ascii) (s : string) : Py.split2 a b s <> [].
Proof.
  destruct s as [|c r]; cbn [Py.split2]; [discriminate|].
  repeat case_match; first [discriminate | apply cons_head_nonempty].
Qed.

Lemma join_cons (sep x : string) (l : list string) :
  l <> [] -> Py.join sep (x :: l) = x +:+ sep +:+ Py.join sep l.
Proof. destruct l; [done | reflexivity]. Qed.

Lemma join_cons_head (sep : string) (c : ascii) (l : list string) :
  Py.join sep (Py.cons_head c l) = String c (Py.join sep l).
Proof. destruct l as [|x [|y r]]; reflexivity. Qed.

(** [sep.join(s.split(sep)) == s] for a two-character separator. *)
Lemma join_split2 (a b : ascii) (s : string) :
  Py.join (String a (String b EmptyString)) (Py.split2 a b s) = s.
Proof.
  remember (S (String.length s)) as n eqn:Hn. assert (Hl : String.length s < n) by lia. clear Hn.
  revert s Hl. induction n as [|n IH]; intros s Hl; [lia|].
  destruct s as [|c r]; [reflexivity|]. simpl in Hl. cbn [Py.split2].
  destruct (Ascii.eqb_spec c a) as [->|Hca].
  - destruct r as [|c2 r2].
    + rewrite join_cons_head. f_equal; apply IH; simpl in *; lia.
    + destruct (Ascii.eqb_spec c2 b) as [->|Hcb].
      * rewrite join_cons by apply split2_nonempty. simpl. rewrite IH; [reflexivity|]. simpl in *; lia.
      * rewrite join_cons_head. f_equal; apply IH; simpl in *; lia.
  - rewrite join_cons_head. f_equal; apply IH; simpl in *; lia.
Qed.

(** [sep.join(l[:k])] is a prefix of [sep.join(l)]. *)
Lemma join_firstn_prefix (sep : string) (l : list string) (k : nat) :
  exists rest, Py.join sep l = Py.join sep (firstn k l) +:+ rest.
Proof.
  revert k. induction l as [|x r IH]; intros k.
  - exists EmptyString. by destruct k.
  - destruct k as [|k]; [by exists (Py.join sep (x :: r))|].
    destruct r as [|y r'].
    + exists EmptyString. destruct k; simpl; by rewrite append_empty_r.
    + rewrite join_cons by discriminate. destruct k as [|k].
      * by exists (sep +:+ Py.join sep (y :: r')).
      * destruct (IH (S k)) as [rest Hr]. exists rest.
        change (firstn (S (S k)) (x :: y :: r')) with (x :: firstn (S k) (y :: r')).
        rewrite (join_cons sep x) by discriminate. rewrite Hr, !append_assoc. reflexivity.
Qed.

(** X12: for a readable chunk, the simulated Agent R_i answer is the fixed
    header followed by a prefix of the chunk's text (its first three
    blank-line separated paragraphs, rejoined); when the chunk has at most
    three paragraphs that prefix is the whole text, unchanged. *)
Theorem simulate_agent_r_response_excerpt (fs : gmap string fentry) (cf : string) (sub_query : json)
    (c : string) :
  fs !! cf = Some (FText c) ->
  exists excerpt rest, c = excerpt +:+ rest /\
    simulate_agent_r_response fs cf sub_query =
      "Based on the technical documentation, here's the relevant information:" +:+ nl +:+ nl +:+ excerpt /\
    (length (Py.split2 "010"%char "010"%char c) <= 3 -> excerpt = c).
Proof.
  intros H. unfold simulate_agent_r_response. rewrite H. cbv zeta.
  pose proof (join_split2 "010"%char "010"%char c) as Hj.
  change (String "010"%char (String "010"%char EmptyString)) with (nl +:+ nl) in Hj.
  destruct (join_firstn_prefix (nl +:+ nl) (Py.split2 "010"%char "010"%char c) 3) as [rest Hr].
  eexists _, rest. split; [|split; [reflexivity|]].
  - rewrite <- Hr. by rewrite Hj.
  - intros Hl. rewrite firstn_all2 by lia. exact Hj.
Qed.

Lemma simulate_agent_r_response_excerpt_witness :
  exists excerpt rest,
    "a" +:+ nl +:+ nl +:+ "b" +:+ nl +:+ nl +:+ "c" +:+ nl +:+ nl +:+ "d" = excerpt +:+ rest /\
    simulate_agent_r_response
      (<["chunks/doc_chapter_1.txt" := FText ("a" +:+ nl +:+ nl +:+ "b" +:+ nl +:+ nl +:+ "c" +:+ nl +:+ nl +:+ "d")]> (∅ : gmap string fentry))
      "chunks/doc_chapter_1.txt" JNull =
      "Based on the technical documentation, here's the relevant information:" +:+ nl +:+ nl +:+ excerpt /\
    (length (Py.split2 "010"%char "010"%char
               ("a" +:+ nl +:+ nl +:+ "b" +:+ nl +:+ nl +:+ "c" +:+ nl +:+ nl +:+ "d")) <= 3 ->
     excerpt = "a" +:+ nl +:+ nl +:+ "b" +:+ nl +:+ nl +:+ "c" +:+ nl +:+ nl +:+ "d").
Proof.
  apply (simulate_agent_r_response_excerpt _ "chunks/doc_chapter_1.txt" JNull).
  vm_compute. reflexivity.
Defined.

(** ** What Agent A is shown of the directory *)

Lemma jset_fresh (kv : list (string * json)) (k : string) (v : json) :
  k ∉ map fst kv -> jset kv k v = (kv ++ [(k, v)])%list.
Proof.
  induction kv as [|[k0 v0] r IH]; simpl; intros H; [done|].
  apply not_elem_of_cons in H as [H1 H2].
  destruct (String.eqb_spec k k0); [congruence|]. by rewrite IH.
Qed.

Lemma summary_fold (d : dir) :
  forall acc : list (string * json), NoDup (map fst acc ++ map fst d)%list ->
  fold_left (fun acc p => jset acc p.1 (JObj [("description", JStr (description p.2))])) d acc =
  (acc ++ map (fun p => (p.1, JObj [("description", JStr (description p.2))])) d)%list.
Proof.
  induction d as [|[k e] r IH]; intros acc Hn; simpl; [by rewrite app_nil_r|].
  apply NoDup_app in Hn as (Ha & Hdis & Hr). simpl in Hr, Hdis.
  rewrite jset_fresh.
  - rewrite IH, <- app_assoc; [done|].
    rewrite map_app. simpl. rewrite <- app_assoc. apply NoDup_app. split; [done|]. split; [|done].
    intros x Hx. simpl in Hdis. exact (Hdis x Hx).
  - intros Hk. by apply (Hdis k Hk); left.
Qed.

(** X13: for a directory with distinct ids, the summary in Agent A's
    prompt is the JSON object that lists every section in directory order,
    each id mapped to an object holding only its description (the chunk
    file paths are never shown). *)
Theorem directory_summary_shape (d : dir) :
  dict_ok d ->
  create_directory_summary d =
    json_dumps (JObj (map (fun p => (p.1, JObj [("description", JStr (description p.2))])) d)).
Proof.
  intros Hd. unfold create_directory_summary. cbv zeta. by rewrite summary_fold.
Qed.

Lemma directory_summary_shape_witness :
  dict_ok demo_dir /\
  create_directory_summary demo_dir =
    json_dumps (JObj (map (fun p => (p.1, JObj [("description", JStr (description p.2))])) demo_dir)).
Proof.
  assert (H : dict_ok demo_dir) by (apply (bool_decide_unpack _); vm_compute; reflexivity).
  split; [exact H | exact (directory_summary_shape demo_dir H)].
Defined.
